(** * The AI assistant relay of the Superset chat plugin

    A shallow embedding of [superset/ai_superset_assistant.py]: the
    in-memory session registry of [AIAssistantAgent], its two relays
    ([get_response_stream], [sync_get_response]) and the four JSON
    handlers of [AISupersetAssistantView], followed by the properties
    the specification states about them.

    Conventions.
    - A Python [str] is a [string]; each character stands for one code
      point (the code points below 256).
    - The registry [self.sessions] is a [gmap] from session id to
      session metadata.
    - A request body is the JSON object the chat page sends: [message]
      and [session_id] are strings where they are present, and
      [session_id] may be null.
      [clear_session] is given a second time, as [clear_session_json],
      on whatever a request can carry: no JSON at all, or any JSON
      value with fields of any type.
    - The handlers are given as they stand behind [@admin_only]; the
      decorator itself is [admin_only], and [serve] is a route with it.
    - Everything the process reads from outside (the random bytes behind
      [uuid.uuid4], the wall clock, the environment variable, the agent
      [get_stream_agent_responce]) is a variable of the section; the
      state counts how often each one has been consulted.
    - A Python generator is described by what it yields when it is run
      to the end, and by how it ends. *)

From Stdlib Require Import NArith ZArith String Ascii List Lia.
From Stdlib Require Import SpecFloat.
From stdpp Require Import gmap strings.
Import ListNotations.

Set Default Proof Using "Type".

(** ** Python values and strings *)

(** The objects an untyped fragment can be, as far as the relay looks at
    them: truthiness, [str.strip] and [str.join]. *)
Inductive pyval :=
  | PNone
  | PBool (b : bool)
  | PInt (z : Z)
  | PStr (s : string).

(** [bool(s)] for a [str]. *)
Definition str_truthy (s : string) : bool :=
  match s with
  | EmptyString => false
  | String _ _ => true
  end.

(** [bool(v)]. *)
Definition truthy (v : pyval) : bool :=
  match v with
  | PNone => false
  | PBool b => b
  | PInt z => negb (z =? 0)%Z
  | PStr s => str_truthy s
  end.

(** [c.isspace()] on the code points below 256: TAB..CR, FS..US, space,
    NEL and the no-break space. *)
Definition isspace (c : ascii) : bool :=
  let n := N_of_ascii c in
  ((9 <=? n) && (n <=? 13) || (28 <=? n) && (n <=? 32)
   || (n =? 133) || (n =? 160))%N.

Fixpoint lstrip (s : string) : string :=
  match s with
  | EmptyString => EmptyString
  | String c r => if isspace c then lstrip r else s
  end.

Fixpoint rstrip (s : string) : string :=
  match s with
  | EmptyString => EmptyString
  | String c r =>
      match rstrip r with
      | EmptyString => if isspace c then EmptyString else String c EmptyString
      | r' => String c r'
      end
  end.

(** [s.strip()]. *)
Definition strip (s : string) : string := rstrip (lstrip s).

(** A string made of whitespace only (the empty string included). *)
Fixpoint blank (s : string) : bool :=
  match s with
  | EmptyString => true
  | String c r => isspace c && blank r
  end.

(** ** Exceptions, results, generators *)

(** Instances of [Exception]: the ones the relay itself can provoke,
    what [request.get_json()] raises when it finds no JSON to read
    (werkzeug's [BadRequest], code 400, and [UnsupportedMediaType], code
    415), and whatever the agent raises. *)
Inductive exn :=
  | TypeError
  | AttributeError
  | KeyError
  | HTTPException (code : nat)
  | AgentError (detail : string).

Inductive result (A : Type) :=
  | Return (a : A)
  | Raise (e : exn).
Arguments Return {A} a.
Arguments Raise {A} e.

(** A generator run to its end: the items it yielded, and [None] when it
    was exhausted normally or [Some e] when [e] escaped from it. *)
Record run (A : Type) := Run { yielded : list A; ending : option exn }.
Arguments Run {A} yielded ending.
Arguments yielded {A} r.
Arguments ending {A} r.

(** [chunk.strip()]: only a [str] has the method. *)
Definition py_strip (v : pyval) : result string :=
  match v with
  | PStr s => Return (strip s)
  | _ => Raise AttributeError
  end.

(** [''.join(parts)]: every item must be a [str]. *)
Fixpoint join (parts : list pyval) : result string :=
  match parts with
  | [] => Return EmptyString
  | PStr s :: rest =>
      match join rest with
      | Return t => Return (s +:+ t)
      | Raise e => Raise e
      end
  | _ :: _ => Raise TypeError
  end.

(** The pieces of text one after the other, in order. *)
Definition concat_text (texts : list string) : string :=
  fold_right String.append EmptyString texts.

(** ** [uuid.uuid4] and its [str] *)

Definition hexdigits : string := "0123456789abcdef".

Definition hex_digit (n : N) : ascii :=
  match String.get (N.to_nat n) hexdigits with
  | Some c => c
  | None => "0"%char
  end.

(** The [i]-th group of four bits of [x], counted from the low end. *)
Definition nibble (x i : N) : N := N.land (N.shiftr x (4 * i)) 15.

(** ['%032x' % x] for [x] below [2^128]. *)
Definition hex32 (x : N) : list ascii :=
  map (fun i => hex_digit (nibble x (N.of_nat i))) (rev (seq 0 32)).

(** [UUID(bytes=os.urandom(16), version=4).int], the sixteen random
    bytes read as the big-endian number [r]. *)
Definition uuid4 (r : N) : N :=
  let int := (r mod 2 ^ 128)%N in
  let int := N.ldiff int (N.shiftl 0xc000 48) in
  let int := N.lor int (N.shiftl 0x8000 48) in
  let int := N.ldiff int (N.shiftl 0xf000 64) in
  N.lor int (N.shiftl 4 76).

(** [str(u)]: the groups [hex[:8]], [hex[8:12]], [hex[12:16]],
    [hex[16:20]] and [hex[20:]] joined by dashes. *)
Definition uuid_str (x : N) : string :=
  let hex := hex32 x in
  let dash := "-"%char in
  string_of_list_ascii
    (firstn 8 hex ++ dash :: firstn 4 (skipn 8 hex) ++ dash ::
     firstn 4 (skipn 12 hex) ++ dash :: firstn 4 (skipn 16 hex) ++ dash ::
     skipn 20 hex).

(** [int(c, 16)] for a lower-case hexadecimal digit. *)
Definition hex_value (c : ascii) : N :=
  match find (fun n => Ascii.eqb (hex_digit n) c) (map N.of_nat (seq 0 16)) with
  | Some n => n
  | None => 0%N
  end.

Definition is_hex (c : ascii) : bool :=
  existsb (Ascii.eqb c) (list_ascii_of_string hexdigits).

(** What position [i] of a version-4 UUID string may hold. *)
Definition uuid4_char_ok (i : nat) (c : ascii) : bool :=
  if existsb (Nat.eqb i) [8; 13; 18; 23] then Ascii.eqb c "-"
  else if Nat.eqb i 14 then Ascii.eqb c "4"
  else if Nat.eqb i 19 then existsb (Ascii.eqb c) (list_ascii_of_string "89ab")
  else is_hex c.

(** The syntax of a session token: 36 characters, [8-4-4-4-12] lower-case
    hexadecimal digits, version digit [4], variant digit in [89ab]. *)
Definition is_uuid4 (s : string) : bool :=
  let cs := list_ascii_of_string s in
  Nat.eqb (length cs) 36
  && forallb (fun ic => uuid4_char_ok (fst ic) (snd ic)) (combine (seq 0 36) cs).

(** ** The world the plugin runs in *)

(** [flask_login.current_user] behind its proxy: [None] when there is no
    user object; [user_username] is [None] when the object has no
    [username] attribute. *)
Record user := User { is_authenticated : bool; user_username : option string }.

(** The value stored under a session id:
    [{'created_at': ..., 'username': ...}]. *)
Record session := Session { created_at : Z; username : string }.

(** The keyword arguments of one call of the agent. *)
Record agent_call := AgentCall {
  call_session_id : string;
  call_message : string;
  call_md_uri : option string;
  call_username : string }.

(** The state of the process: the registry [AIAssistantAgent.sessions],
    how many UUIDs were drawn, how often the clock was read, and the
    calls made to the agent so far (oldest first). *)
Record world := World {
  sessions : gmap string session;
  draws : nat;
  ticks : nat;
  agent_calls : list agent_call }.

(** The process right after [AIAssistantAgent.__init__]. *)
Definition init_world : world := World ∅ 0 0 [].

(** A computation that may change the world and may raise. *)
Definition M (A : Type) : Type := world -> result A * world.

Definition ret {A} (a : A) : M A := fun w => (Return a, w).

Definition bind {A B} (m : M A) (k : A -> M B) : M B :=
  fun w =>
    match m w with
    | (Return a, w') => k a w'
    | (Raise e, w') => (Raise e, w')
    end.

(** [try: body  except Exception as e: handler] *)
Definition try_except {A} (body : M A) (handler : exn -> M A) : M A :=
  fun w =>
    match body w with
    | (Return a, w') => (Return a, w')
    | (Raise e, w') => handler e w'
    end.

Notation "'let!' x ':=' m 'in' k" := (bind m (fun x => k))
  (at level 10, x pattern, m at level 100, k at level 200).

(** JSON values of the responses: a Python value as [json.dumps] and
    [jsonify] render it, and [datetime.isoformat()] of a clock reading. *)
Inductive jval :=
  | JVal (v : pyval)
  | JIso (t : Z).

Abbreviation JStr s := (JVal (PStr s)).

(** The dict handed to [jsonify] or [json.dumps], keys in source order. *)
Abbreviation jdict := (list (string * jval)).

(** One frame of the event stream: the text
    [data: ] + [json.dumps(d)] + two line feeds. *)
Inductive frame := Sse (d : jdict).

Inductive response :=
  | Json (status : nat) (body : jdict)
  | Stream (frames : list frame).

(** The parsed request body [data = request.get_json()], a JSON object;
    a field is [None] when its key is missing (and, for [session_id],
    also when it is [null]: [dict.get] does not tell them apart). *)
Record request := Request {
  req_message : option string;
  req_session_id : option string }.

(** [d.get(k)] on a response dict. *)
Fixpoint jget (k : string) (d : jdict) : option jval :=
  match d with
  | [] => None
  | (k', v) :: rest => if String.eqb k k' then Some v else jget k rest
  end.

(** The [type] discriminator of a frame. *)
Definition event_type (f : frame) : option jval :=
  match f with Sse d => jget "type" d end.

Definition session_frame (session_id : string) : frame :=
  Sse [("type", JStr "session"); ("session_id", JStr session_id)].

Definition chunk_frame (chunk : pyval) : frame :=
  Sse [("type", JStr "chunk"); ("content", JVal chunk)].

Definition done_frame : frame := Sse [("type", JStr "done")].

Definition error_frame : frame :=
  Sse [("type", JStr "error");
       ("content", JStr "I encountered an error. Please try again.")].

Definition error_message : string :=
  "I'm sorry, I encountered an error while processing your request. Please try again.".

Definition fallback_response : string :=
  "I'm experiencing technical difficulties. Please try again later.".

(** [getattr(current_user, 'username', 'anonymous')
     if current_user and current_user.is_authenticated else 'anonymous'] *)
Definition resolve_username (current_user : option user) : string :=
  match current_user with
  | Some u =>
      if is_authenticated u then default "anonymous" (user_username u)
      else "anonymous"
  | None => "anonymous"
  end.

(** [session_id in self.sessions] *)
Definition has_session (w : world) (session_id : string) : bool :=
  match sessions w !! session_id with
  | Some _ => true
  | None => false
  end.

(** [not session_id or session_id not in self.sessions] *)
Definition needs_session (w : world) (session_id : option string) : bool :=
  match session_id with
  | Some s => negb (str_truthy s) || negb (has_session w s)
  | None => true
  end.

(** [@admin_only] *)
Definition admin_only (current_user : option user) (f : M response) : M response :=
  match current_user with
  | Some u =>
      if is_authenticated u then f
      else ret (Json 401 [("error", JStr "Authentication required")])
  | None => ret (Json 401 [("error", JStr "Authentication required")])
  end.

(** [@failure_tolerant] *)
Definition failure_tolerant (f : M response) : M response :=
  try_except f (fun _ => ret (Json 500 [("error", JStr "Something went wrong")])).

(** ** Sample surroundings

    Concrete random sources, clocks, agents and callers, used where a
    property is shown at an explicit input. *)

(** A random source that hands out the same sixteen zero bytes at every
    call. *)
Definition stuck_urandom : nat -> N := fun _ => 0%N.

(** A random source whose [k]-th draw is the number [k]. *)
Definition counting_urandom : nat -> N := fun k => N.of_nat k.

(** A clock that advances by one at every reading. *)
Definition counting_clock : nat -> Z := fun k => Z.of_nat k.

(** An agent that raises before it yields anything. *)
Definition failing_agent : nat -> agent_call -> run pyval :=
  fun _ _ => Run [] (Some (AgentError "connection refused")).

(** An agent that yields three pieces of text, the middle one a single
    space, and completes. *)
Definition spaced_agent : nat -> agent_call -> run pyval :=
  fun _ _ => Run [PStr "Hello"; PStr " "; PStr "world"] None.

(** An agent that yields a piece of text, then a number, and completes. *)
Definition untyped_agent : nat -> agent_call -> run pyval :=
  fun _ _ => Run [PStr "rows: "; PInt 42] None.

(** An authenticated caller. *)
Definition alice : option user := Some (User true (Some "alice")).

(** ** The agent relay and the handlers *)

Section Relay.

(** [os.urandom(16)] at its [k]-th call, as a number. *)
Variable urandom : nat -> N.

(** [datetime.now()] at its [k]-th call. *)
Variable clock : nat -> Z.

(** [os.environ.get('SQLALCHEMY_DATABASE_URI')] *)
Variable md_uri : option string.

(** The external agent, opaque: what the async generator it returns
    yields and how it ends, at the [k]-th call and for the given
    arguments. A failure of the [await] itself is a run that yields
    nothing and ends in that exception. *)
Variable get_stream_agent_responce : nat -> agent_call -> run pyval.

(** [datetime.now()] *)
Definition now : M Z :=
  fun w =>
    (Return (clock (ticks w)),
     World (sessions w) (draws w) (S (ticks w)) (agent_calls w)).

(** [str(uuid.uuid4())] *)
Definition new_uuid : M string :=
  fun w =>
    (Return (uuid_str (uuid4 (urandom (draws w)))),
     World (sessions w) (S (draws w)) (ticks w) (agent_calls w)).

(** [self.sessions[session_id] = meta] *)
Definition store_session (session_id : string) (meta : session) : M unit :=
  fun w =>
    (Return tt,
     World (<[session_id := meta]> (sessions w)) (draws w) (ticks w)
       (agent_calls w)).

(** [AIAssistantAgent.create_session] *)
Definition create_session (current_user : option user) : M string :=
  let! session_id := new_uuid in
  let! t := now in
  let! _ := store_session session_id (Session t (resolve_username current_user)) in
  ret session_id.

(** [if not session_id or session_id not in self.sessions:
       session_id = self.create_session()], giving the session id in
    effect afterwards. *)
Definition session_or_new (current_user : option user)
    (session_id : option string) : M string :=
  fun w =>
    match session_id with
    | Some s =>
        if negb (str_truthy s) || negb (has_session w s)
        then create_session current_user w
        else (Return s, w)
    | None => create_session current_user w
    end.

(** [self.sessions[session_id].get('username', 'anonymous')]; every
    stored value has the key [username]. *)
Definition session_username (session_id : string) : M string :=
  fun w =>
    match sessions w !! session_id with
    | Some meta => (Return (username meta), w)
    | None => (Raise KeyError, w)
    end.

(** [await get_stream_agent_responce(...)] and the iteration over
    [stream_generator()], run to the end. *)
Definition call_agent (call : agent_call) : world -> run pyval * world :=
  fun w =>
    (get_stream_agent_responce (length (agent_calls w)) call,
     World (sessions w) (draws w) (ticks w) (agent_calls w ++ [call])).

(** The body of the [try] in [get_response_stream]: every truthy chunk
    of the agent is passed on ([if chunk: yield chunk]); when the agent
    raises, the [except] branch yields [error_message] as one more
    item. *)
Definition relayed_items (agent : run pyval) : list pyval :=
  filter (fun chunk => truthy chunk = true) (yielded agent)
  ++ match ending agent with
     | Some _ => [PStr error_message]
     | None => []
     end.

(** [AIAssistantAgent.get_response_stream], run to the end. What is
    raised before the [try] escapes from the generator; what the agent
    raises is answered by one last item, [error_message]. *)
Definition get_response_stream (current_user : option user) (message : string)
    (session_id username : option string) : world -> run pyval * world :=
  fun w =>
    match session_or_new current_user session_id w with
    | (Raise e, w1) => (Run [] (Some e), w1)
    | (Return session_id, w1) =>
        let resolved :=
          match username with
          | Some u => if str_truthy u then ret u else session_username session_id
          | None => session_username session_id
          end in
        match resolved w1 with
        | (Raise e, w2) => (Run [] (Some e), w2)
        | (Return username, w2) =>
            let '(agent, w3) :=
              call_agent (AgentCall session_id message md_uri username) w2 in
            (Run (relayed_items agent) None, w3)
        end
    end.

(** [collect_response] inside [sync_get_response]: gather every item,
    then [''.join(response_parts)]. *)
Definition collect_response (current_user : option user) (message : string)
    (session_id : string) (username : option string) : M string :=
  fun w =>
    let '(g, w1) :=
      get_response_stream current_user message (Some session_id) username w in
    match ending g with
    | Some e => (Raise e, w1)
    | None => (join (yielded g), w1)
    end.

(** The [except] branch of [sync_get_response]:
    [return fallback_response, session_id or self.create_session()],
    with [session_id] as it stands when the exception arrives. *)
Definition sync_fallback (current_user : option user)
    (session_id : option string) : M (string * string) :=
  let! session_id :=
    match session_id with
    | Some s => if str_truthy s then ret s else create_session current_user
    | None => create_session current_user
    end in
  ret (fallback_response, session_id).

(** [AIAssistantAgent.sync_get_response]. Creating, running and closing
    the event loop leaves no trace in the world. *)
Definition sync_get_response (current_user : option user) (message : string)
    (session_id username : option string) : M (string * string) :=
  fun w =>
    match session_or_new current_user session_id w with
    | (Raise _, w1) => sync_fallback current_user session_id w1
    | (Return sid, w1) =>
        match collect_response current_user message sid username w1 with
        | (Return complete_response, w2) => (Return (complete_response, sid), w2)
        | (Raise _, w2) => sync_fallback current_user (Some sid) w2
        end
    end.

(** [stream_response] inside [generate_stream], fed with what
    [get_response_stream] yielded and how it ended: one [chunk] frame per
    item passing [if chunk and chunk.strip()]; the first exception ends
    the run. *)
Fixpoint relay_chunks (chunks : list pyval) (inner_ending : option exn) : run frame :=
  match chunks with
  | [] => Run [] inner_ending
  | chunk :: rest =>
      if truthy chunk then
        match py_strip chunk with
        | Raise e => Run [] (Some e)
        | Return stripped =>
            if str_truthy stripped then
              let r := relay_chunks rest inner_ending in
              Run (chunk_frame chunk :: yielded r) (ending r)
            else relay_chunks rest inner_ending
        end
      else relay_chunks rest inner_ending
  end.

Definition stream_response (current_user : option user) (message : string)
    (new_session_id username : string) : world -> run frame * world :=
  fun w =>
    let '(g, w1) :=
      get_response_stream current_user message (Some new_session_id)
        (Some username) w in
    (relay_chunks (yielded g) (ending g), w1).

(** [generate_stream] inside [chat_stream_api], run to the end: the
    frames it yields. Whatever is raised inside its [try] is answered by
    the [error] frame, after which the generator returns. *)
Definition generate_stream (current_user : option user) (message : string)
    (session_id : option string) : world -> list frame * world :=
  fun w =>
    match session_or_new current_user session_id w with
    | (Raise _, w1) => ([error_frame], w1)
    | (Return new_session_id, w1) =>
        let username := resolve_username current_user in
        let '(events, w2) :=
          stream_response current_user message new_session_id username w1 in
        (session_frame new_session_id :: yielded events
           ++ [match ending events with
               | None => done_frame
               | Some _ => error_frame
               end],
         w2)
    end.

(** [AISupersetAssistantView.new_session], under [@failure_tolerant]. *)
Definition new_session (current_user : option user) : M response :=
  failure_tolerant
    (let! session_id := create_session current_user in
     ret (Json 200 [("session_id", JStr session_id);
                    ("status", JStr "created");
                    ("message", JStr "New session initialized")])).

(** [AISupersetAssistantView.chat_api], under [@failure_tolerant]. *)
Definition chat_api (current_user : option user) (data : request) : M response :=
  failure_tolerant
    (let message := strip (default EmptyString (req_message data)) in
     let session_id := req_session_id data in
     if negb (str_truthy message) then
       ret (Json 400 [("error", JStr "Message is required")])
     else
       try_except
         (let username := resolve_username current_user in
          let! (response, session_id) :=
            sync_get_response current_user message session_id (Some username) in
          let! t := now in
          ret (Json 200 [("response", JStr response);
                         ("session_id", JStr session_id);
                         ("timestamp", JIso t)]))
         (fun _ => ret (Json 500 [("error", JStr "Failed to process message")]))).

(** [AISupersetAssistantView.chat_stream_api], under [@failure_tolerant];
    the streamed body is given as the frames read to the end. *)
Definition chat_stream_api (current_user : option user) (data : request) : M response :=
  failure_tolerant
    (let message := strip (default EmptyString (req_message data)) in
     let session_id := req_session_id data in
     if negb (str_truthy message) then
       ret (Json 400 [("error", JStr "Message is required")])
     else
       fun w =>
         let '(frames, w1) := generate_stream current_user message session_id w in
         (Return (Stream frames), w1)).

(** [AISupersetAssistantView.clear_session], under [@failure_tolerant]. *)
Definition clear_session (data : request) : M response :=
  failure_tolerant
    (fun w =>
       match req_session_id data with
       | Some session_id =>
           if str_truthy session_id && has_session w session_id then
             (Return (Json 200 [("message", JStr "Session cleared successfully")]),
              World (delete session_id (sessions w)) (draws w) (ticks w)
                (agent_calls w))
           else (Return (Json 404 [("error", JStr "Session not found")]), w)
       | None => (Return (Json 404 [("error", JStr "Session not found")]), w)
       end).

(** The four POST routes as the view exposes them, each behind
    [@admin_only]. *)
Inductive route :=
  | NewSession
  | Chat (data : request)
  | ChatStream (data : request)
  | ClearSession (data : request).

Definition serve (current_user : option user) (r : route) : M response :=
  admin_only current_user
    match r with
    | NewSession => new_session current_user
    | Chat data => chat_api current_user data
    | ChatStream data => chat_stream_api current_user data
    | ClearSession data => clear_session data
    end.

(** The states the process can be in: those reached from the fresh
    agent by serving requests, whoever sends them. *)
Inductive reachable : world -> Prop :=
  | reachable_init : reachable init_world
  | reachable_serve w current_user r :
      reachable w -> reachable (snd (serve current_user r w)).

(** The id the next call of [create_session] hands out. *)
Definition next_session_id (w : world) : string :=
  uuid_str (uuid4 (urandom (draws w))).

(** The session ids issued so far, oldest first. *)
Definition issued (w : world) : list string :=
  map (fun k => uuid_str (uuid4 (urandom k))) (seq 0 (draws w)).


(** Every key of the registry is a well-formed session token. *)
Definition registry_ok (w : world) : Prop :=
  forall k meta, sessions w !! k = Some meta -> is_uuid4 k = true.

(** ** Reading a response *)

(** [d.get('content')] on the payload of a frame. *)
Definition frame_content (f : frame) : option jval :=
  match f with Sse d => jget "content" d end.

(** The text a reader of the stream collects from it: the [content] of
    every frame of type [chunk], in order. *)
Definition chunk_texts (frames : list frame) : list string :=
  flat_map
    (fun f =>
       match event_type f, frame_content f with
       | Some (JVal (PStr kind)), Some (JVal (PStr text)) =>
           if String.eqb kind "chunk" then [text] else []
       | _, _ => []
       end)
    frames.

(** [s[0]] and [s[-1]], where they exist. *)
Definition first_char (s : string) : option ascii :=
  match s with
  | EmptyString => None
  | String c _ => Some c
  end.

Fixpoint last_char (s : string) : option ascii :=
  match s with
  | EmptyString => None
  | String c EmptyString => Some c
  | String _ r => last_char r
  end.

(** Every session of the registry goes back to a call of
    [create_session]: its key is one of the ids issued, and its
    [created_at] is a reading of the clock taken so far. *)
Definition registry_issued (w : world) : Prop :=
  forall k meta,
    sessions w !! k = Some meta ->
    In k (issued w) /\ exists t, t < ticks w /\ created_at meta = clock t.

(** The user name the agent is called with: the one handed to
    [get_response_stream] when it is truthy, and the one stored with the
    session otherwise. *)
Definition username_for_agent (given : option string) (meta : session) : string :=
  match given with
  | Some u => if str_truthy u then u else username meta
  | None => username meta
  end.

(** The six bits of a UUID that [uuid4] fixes (variant and version), and
    what is left of a draw of sixteen random bytes once they are taken
    out: the 122 bits that reach the UUID. *)
Definition uuid4_fixed_bits : N :=
  N.lor (N.shiftl 0xc000 48) (N.shiftl 0xf000 64).

Definition uuid4_random_bits (r : N) : N :=
  N.ldiff (r mod 2 ^ 128)%N uuid4_fixed_bits.

(** An agent that yields two pieces of text and then raises. *)
Definition flaky_agent : nat -> agent_call -> run pyval :=
  fun _ _ => Run [PStr "Let me "; PStr "check"] (Some (AgentError "timed out")).

(** ** The body of a request as it arrives

    [request] above is the body of a well-formed request. What
    [request.get_json()] can hand to a handler is wider: it raises when
    no JSON can be read from the request, and otherwise returns any JSON
    value, with fields of any JSON type. *)

(** A value as [json.loads] gives it to Python. An object is the list of
    the items of the [dict]; a key is looked up from the front. *)
#[warnings="-register-all"]
Inductive json :=
  | JNull
  | JBoolean (b : bool)
  | JInt (z : Z)
  | JFloat (f : spec_float)
  | JString (s : string)
  | JArray (items : list json)
  | JObject (fields : list (string * json)).

(** [d.get(k)] on a parsed object: [None] when the key is missing. *)
Fixpoint jfield (k : string) (fields : list (string * json)) : option json :=
  match fields with
  | [] => None
  | (k', v) :: rest => if String.eqb k k' then Some v else jfield k rest
  end.

(** [bool(v)] for a parsed value. *)
Definition json_truthy (v : json) : bool :=
  match v with
  | JNull => false
  | JBoolean b => b
  | JInt z => negb (z =? 0)%Z
  | JFloat (S754_zero _) => false
  | JFloat _ => true
  | JString s => str_truthy s
  | JArray [] => false
  | JArray (_ :: _) => true
  | JObject [] => false
  | JObject (_ :: _) => true
  end.

(** Whether [hash(v)] works: a [list] and a [dict] are unhashable. *)
Definition json_hashable (v : json) : bool :=
  match v with
  | JArray _ | JObject _ => false
  | _ => true
  end.

(** [v in self.ai_agent.sessions]: the keys are strings, so only a
    string can be found; an unhashable value raises [TypeError]. *)
Definition json_in_sessions (w : world) (v : json) : result bool :=
  match v with
  | JString s => Return (has_session w s)
  | JArray _ | JObject _ => Raise TypeError
  | _ => Return false
  end.

(** [AISupersetAssistantView.clear_session], under [@failure_tolerant],
    on whatever the request carries; [get_json] is the outcome of
    [request.get_json()]. Calling [.get] on a value that is not a [dict]
    raises [AttributeError]. *)
Definition clear_session_json (get_json : result json) : M response :=
  failure_tolerant
    (fun w =>
       match get_json with
       | Raise e => (Raise e, w)
       | Return (JObject fields) =>
           match jfield "session_id" fields with
           | Some session_id =>
               if json_truthy session_id then
                 match session_id, json_in_sessions w session_id with
                 | JString s, Return true =>
                     (Return (Json 200 [("message", JStr "Session cleared successfully")]),
                      World (delete s (sessions w)) (draws w) (ticks w)
                        (agent_calls w))
                 | _, Return _ =>
                     (Return (Json 404 [("error", JStr "Session not found")]), w)
                 | _, Raise e => (Raise e, w)
                 end
               else (Return (Json 404 [("error", JStr "Session not found")]), w)
           | None => (Return (Json 404 [("error", JStr "Session not found")]), w)
           end
       | Return _ => (Raise AttributeError, w)
       end).

(** The JSON object a well-formed [request] stands for. *)
Definition request_fields (data : request) : list (string * json) :=
  match req_message data with
  | Some message => [("message", JString message)]
  | None => []
  end
  ++ match req_session_id data with
     | Some session_id => [("session_id", JString session_id)]
     | None => []
     end.

(** ** Python strings *)

Lemma lstrip_blank s : blank s = true -> lstrip s = EmptyString.
Proof.
  induction s as [|c r IH]; simpl; [reflexivity|].
  destruct (isspace c); [exact IH | discriminate].
Qed.

Lemma blank_lstrip s : blank (lstrip s) = blank s.
Proof.
  induction s as [|c r IH]; simpl; [reflexivity|].
  destruct (isspace c) eqn:Hc; simpl; [exact IH | now rewrite Hc].
Qed.

Lemma rstrip_truthy s : blank s = false -> str_truthy (rstrip s) = true.
Proof.
  induction s as [|c r IH]; simpl; [discriminate|].
  intros H. destruct (rstrip r) eqn:Hr; [|reflexivity].
  destruct (isspace c); [|reflexivity].
  simpl in H. specialize (IH H). discriminate.
Qed.

(** A message survives [strip] exactly when it has a character that is
    not whitespace. *)
Lemma strip_truthy s : str_truthy (strip s) = negb (blank s).
Proof.
  unfold strip. destruct (blank s) eqn:Hb; simpl.
  - now rewrite lstrip_blank.
  - apply rstrip_truthy. now rewrite blank_lstrip.
Qed.

Lemma strip_blank s : blank s = true -> strip s = EmptyString.
Proof.
  intros H. pose proof (strip_truthy s) as Ht. rewrite H in Ht.
  destruct (strip s); [reflexivity | discriminate].
Qed.

(** [''.join] of text only is the concatenation. *)
Lemma join_text texts : join (map PStr texts) = Return (concat_text texts).
Proof.
  induction texts as [|t rest IH]; simpl; [reflexivity|].
  now rewrite IH.
Qed.

(** ** Session tokens *)

Lemma hex_digit_is_hex n : is_hex (hex_digit n) = true.
Proof.
  unfold hex_digit. generalize (N.to_nat n) as k. intros k.
  do 16 (destruct k as [|k]; [reflexivity|]). reflexivity.
Qed.

Lemma hex_value_digit n : (n < 16)%N -> hex_value (hex_digit n) = n.
Proof.
  intros Hn. destruct n as [|p]; [reflexivity|].
  do 4 (destruct p as [p|p|]; try lia; try reflexivity).
Qed.

Lemma nibble_lt x i : (nibble x i < 16)%N.
Proof.
  unfold nibble. change 15%N with (N.ones 4). rewrite N.land_ones.
  apply N.mod_lt. discriminate.
Qed.

Lemma nibble_testbit x i j :
  (j < 4)%N -> N.testbit (nibble x i) j = N.testbit x (j + 4 * i).
Proof.
  intros Hj. unfold nibble. rewrite N.land_spec, N.shiftr_spec'.
  replace (N.testbit 15 j) with true; [apply andb_true_r|].
  destruct j as [|p]; [reflexivity|].
  do 2 (destruct p as [p|p|]; try lia; try reflexivity).
Qed.

Lemma land_ldiff_distr a b c :
  N.land (N.ldiff a b) c = N.ldiff (N.land a c) (N.land b c).
Proof.
  apply N.bits_inj. intros n.
  rewrite !N.land_spec, !N.ldiff_spec, !N.land_spec.
  destruct (N.testbit a n), (N.testbit b n), (N.testbit c n); reflexivity.
Qed.

Lemma lt_pow2_bits a k :
  (forall n, (k <= n)%N -> N.testbit a n = false) -> (a < 2 ^ k)%N.
Proof.
  intros H. assert (Ha : a = (a mod 2 ^ k)%N).
  { apply N.bits_inj. intros n. destruct (N.lt_ge_cases n k) as [Hlt|Hge].
    - now rewrite N.mod_pow2_bits_low.
    - now rewrite N.mod_pow2_bits_high, H. }
  rewrite Ha. apply N.mod_lt, N.pow_nonzero. discriminate.
Qed.

Lemma bits_lt_pow2 a k n : (a < 2 ^ k)%N -> (k <= n)%N -> N.testbit a n = false.
Proof.
  intros Ha Hn. rewrite <- (N.mod_small a (2 ^ k)) by assumption.
  now apply N.mod_pow2_bits_high.
Qed.

(** The version digit is [4]. *)
Lemma uuid4_version r : nibble (uuid4 r) 19 = 4%N.
Proof.
  unfold nibble, uuid4.
  rewrite N.shiftr_lor, N.shiftr_ldiff.
  change (N.shiftr (N.shiftl 4 76) (4 * 19)) with 4%N.
  change (N.shiftr (N.shiftl 61440 64) (4 * 19)) with 15%N.
  rewrite N.land_lor_distr_l, N.land_ldiff. reflexivity.
Qed.

(** The variant digit is one of [8], [9], [a], [b]. *)
Lemma uuid4_variant r : (8 <= nibble (uuid4 r) 15 < 12)%N.
Proof.
  unfold nibble, uuid4.
  rewrite N.shiftr_lor, N.shiftr_ldiff, N.shiftr_lor, N.shiftr_ldiff.
  set (z := N.shiftr (r mod 2 ^ 128) (4 * 15)).
  change (N.shiftr (N.shiftl 4 76) (4 * 15)) with 262144%N.
  change (N.shiftr (N.shiftl 61440 64) (4 * 15)) with 983040%N.
  change (N.shiftr (N.shiftl 49152 48) (4 * 15)) with 12%N.
  change (N.shiftr (N.shiftl 32768 48) (4 * 15)) with 8%N.
  rewrite N.land_lor_distr_l, land_ldiff_distr, N.land_lor_distr_l, land_ldiff_distr.
  change (N.land 262144 15) with 0%N. change (N.land 983040 15) with 0%N.
  change (N.land 12 15) with 12%N. change (N.land 8 15) with 8%N.
  rewrite N.ldiff_0_r, N.lor_0_r.
  assert (H : (N.land z 15 < 16)%N).
  { change 15%N with (N.ones 4). rewrite N.land_ones. apply N.mod_lt. discriminate. }
  revert H. generalize (N.land z 15). intros n Hn.
  destruct n as [|p]; [vm_compute; split; [discriminate|reflexivity]|].
  do 4 (destruct p as [p|p|]; try (exfalso; lia);
        try (vm_compute; split; [discriminate|reflexivity])).
Qed.

Lemma variant_digit n : (8 <= n < 12)%N ->
  existsb (Ascii.eqb (hex_digit n)) (list_ascii_of_string "89ab") = true.
Proof.
  intros [Hlo Hhi].
  destruct n as [|p]; [lia|].
  do 4 (destruct p as [p|p|]; try lia; try reflexivity).
Qed.

(** Whatever the random bytes, [str(uuid.uuid4())] is a well-formed
    token. *)
Lemma uuid4_is_uuid4 r : is_uuid4 (uuid_str (uuid4 r)) = true.
Proof.
  pose proof (uuid4_version r) as Hv.
  pose proof (variant_digit _ (uuid4_variant r)) as Hr.
  unfold is_uuid4, uuid_str, hex32.
  generalize dependent (uuid4 r). intros x Hv Hr.
  cbn [seq rev map app firstn skipn].
  rewrite list_ascii_of_string_of_list_ascii.
  cbn [length combine forallb fst snd Nat.eqb andb].
  unfold uuid4_char_ok. cbn [existsb Nat.eqb orb].
  change (N.of_nat 19) with 19%N. change (N.of_nat 15) with 15%N.
  rewrite Hv, Hr, !hex_digit_is_hex. reflexivity.
Qed.

Lemma uuid4_lt r : (uuid4 r < 2 ^ 128)%N.
Proof.
  apply lt_pow2_bits. intros n Hn. unfold uuid4.
  rewrite N.lor_spec, N.ldiff_spec, N.lor_spec, N.ldiff_spec.
  rewrite (bits_lt_pow2 (r mod 2 ^ 128) 128 n)
    by (assumption || (apply N.mod_lt; discriminate)).
  rewrite (bits_lt_pow2 (N.shiftl 32768 48) 128 n) by (assumption || reflexivity).
  rewrite (bits_lt_pow2 (N.shiftl 4 76) 128 n) by (assumption || reflexivity).
  reflexivity.
Qed.

Lemma nibbles_inj x y :
  (x < 2 ^ 128)%N -> (y < 2 ^ 128)%N ->
  (forall i, (i < 32)%nat -> nibble x (N.of_nat i) = nibble y (N.of_nat i)) ->
  x = y.
Proof.
  intros Hx Hy Hn. apply N.bits_inj. intros n.
  destruct (N.lt_ge_cases n 128) as [Hlt|Hge].
  - pose proof (N.div_mod n 4 ltac:(discriminate)) as Hdm.
    pose proof (N.mod_lt n 4 ltac:(discriminate)) as Hm.
    assert (Hq : (n / 4 < 32)%N) by (apply N.Div0.div_lt_upper_bound; lia).
    replace n with (n mod 4 + 4 * (n / 4))%N by lia.
    rewrite <- !nibble_testbit by assumption.
    specialize (Hn (N.to_nat (n / 4)) ltac:(lia)).
    rewrite N2Nat.id in Hn. now rewrite Hn.
  - now rewrite (bits_lt_pow2 x 128 n), (bits_lt_pow2 y 128 n).
Qed.

(** Two 128-bit numbers with the same rendering are equal. *)
Lemma uuid_str_inj x y :
  (x < 2 ^ 128)%N -> (y < 2 ^ 128)%N -> uuid_str x = uuid_str y -> x = y.
Proof.
  intros Hx Hy H. apply nibbles_inj; [assumption..|].
  apply (f_equal list_ascii_of_string) in H. revert H.
  unfold uuid_str, hex32. rewrite !list_ascii_of_string_of_list_ascii.
  cbn [seq rev map app firstn skipn]. intros H i Hi.
  rewrite <- (hex_value_digit (nibble x (N.of_nat i))) by apply nibble_lt.
  rewrite <- (hex_value_digit (nibble y (N.of_nat i))) by apply nibble_lt.
  f_equal.
  injection H as H31 H30 H29 H28 H27 H26 H25 H24 H23 H22 H21 H20 H19 H18 H17 H16
    H15 H14 H13 H12 H11 H10 H9 H8 H7 H6 H5 H4 H3 H2 H1 H0.
  do 32 (destruct i as [|i]; [assumption|]). lia.
Qed.

(** A well-formed token is not the empty string. *)
Lemma is_uuid4_truthy s : is_uuid4 s = true -> str_truthy s = true.
Proof. destruct s; [discriminate | reflexivity]. Qed.

(** ** The registry *)

Lemma create_session_eq cu w :
  create_session cu w =
    (Return (next_session_id w),
     World (<[next_session_id w := Session (clock (ticks w)) (resolve_username cu)]>
              (sessions w))
       (S (draws w)) (S (ticks w)) (agent_calls w)).
Proof. reflexivity. Qed.

Lemma has_session_lookup w k : has_session w k = true <-> is_Some (sessions w !! k).
Proof.
  unfold has_session. destruct (sessions w !! k); split; intros H;
    try reflexivity; try discriminate; eauto.
  destruct H as [? H]. discriminate.
Qed.

(** What [session_or_new] settles on is a non-empty key of the registry;
    it is the supplied id when that one is known, and a fresh one
    otherwise. The agent is not involved. *)
Lemma session_or_new_spec cu session_id w :
  exists sid w1 meta,
    session_or_new cu session_id w = (Return sid, w1)
    /\ sessions w1 !! sid = Some meta
    /\ str_truthy sid = true
    /\ agent_calls w1 = agent_calls w
    /\ (needs_session w session_id = false /\ session_id = Some sid /\ w1 = w
        \/ needs_session w session_id = true /\ sid = next_session_id w
           /\ w1 = snd (create_session cu w)).
Proof.
  assert (Hnew : needs_session w session_id = true ->
                 session_or_new cu session_id w = create_session cu w).
  { unfold needs_session, session_or_new. destruct session_id as [s|]; [|reflexivity].
    now intros ->. }
  destruct (needs_session w session_id) eqn:Hn.
  - rewrite (Hnew eq_refl), create_session_eq.
    eexists _, _, _. split; [reflexivity|]. cbn [sessions agent_calls snd].
    split; [apply lookup_insert_eq|].
    split; [apply is_uuid4_truthy, uuid4_is_uuid4|].
    split; [reflexivity|]. right. easy.
  - destruct session_id as [s|]; [|discriminate]. cbn in Hn.
    apply orb_false_elim in Hn as [Ht Hh].
    apply negb_false_iff in Ht. apply negb_false_iff in Hh.
    unfold session_or_new. rewrite Ht, Hh. cbn.
    apply has_session_lookup in Hh as Hm. destruct Hm as [meta Hm].
    exists s, w, meta. repeat split; try assumption. left.
    repeat split.
Qed.

(** On a known, non-empty session id [get_response_stream] makes exactly
    one call of the agent, for that session and message, leaves the
    registry alone, and never raises. *)
Lemma get_response_stream_known cu message sid username w meta :
  sessions w !! sid = Some meta -> str_truthy sid = true ->
  exists call,
    call_session_id call = sid /\ call_message call = message
    /\ get_response_stream cu message (Some sid) username w =
         (Run (relayed_items
                 (get_stream_agent_responce (length (agent_calls w)) call)) None,
          World (sessions w) (draws w) (ticks w) (agent_calls w ++ [call])).
Proof.
  intros Hm Ht. unfold get_response_stream, session_or_new, has_session.
  rewrite Ht, Hm. cbn [negb orb].
  destruct username as [u|]; [destruct (str_truthy u)|];
    unfold ret, session_username; rewrite ?Hm; cbn;
    eexists (AgentCall sid message md_uri _); repeat split.
Qed.

(** ** The one-shot relay *)

(** [sync_get_response] always returns: it settles the session, calls
    the agent once for it, and answers with the joined items, or with
    [fallback_response] when they cannot be joined. *)
Lemma sync_get_response_spec cu message session_id username w :
  exists sid w1 call,
    session_or_new cu session_id w = (Return sid, w1)
    /\ call_session_id call = sid /\ call_message call = message
    /\ sync_get_response cu message session_id username w =
         (Return
            (match join (relayed_items
                           (get_stream_agent_responce (length (agent_calls w)) call))
             with
             | Return text => text
             | Raise _ => fallback_response
             end, sid),
          World (sessions w1) (draws w1) (ticks w1) (agent_calls w ++ [call])).
Proof.
  destruct (session_or_new_spec cu session_id w)
    as (sid & w1 & meta & Hs & Hm & Ht & Hc & _).
  destruct (get_response_stream_known cu message sid username w1 meta Hm Ht)
    as (call & Hcs & Hcm & Hg).
  exists sid, w1, call. repeat split; try assumption.
  unfold sync_get_response, collect_response. rewrite Hs, Hg, Hc. cbn [ending yielded].
  destruct (join _) as [text|e]; [reflexivity|].
  unfold sync_fallback, bind, ret. now rewrite Ht.
Qed.

(** ** The streaming relay *)

(** [generate_stream] settles the session, announces it, calls the agent
    once, and closes with [done], or with [error] when relaying a chunk
    raised. *)
Lemma generate_stream_spec cu message session_id w :
  exists sid w1 call,
    session_or_new cu session_id w = (Return sid, w1)
    /\ call_session_id call = sid /\ call_message call = message
    /\ generate_stream cu message session_id w =
         (let events :=
            relay_chunks
              (relayed_items
                 (get_stream_agent_responce (length (agent_calls w)) call)) None in
          session_frame sid :: yielded events
            ++ [match ending events with
                | None => done_frame
                | Some _ => error_frame
                end],
          World (sessions w1) (draws w1) (ticks w1) (agent_calls w ++ [call])).
Proof.
  destruct (session_or_new_spec cu session_id w)
    as (sid & w1 & meta & Hs & Hm & Ht & Hc & _).
  destruct (get_response_stream_known cu message sid
              (Some (resolve_username cu)) w1 meta Hm Ht)
    as (call & Hcs & Hcm & Hg).
  exists sid, w1, call. repeat split; try assumption.
  unfold generate_stream, stream_response. rewrite Hs, Hg, Hc. reflexivity.
Qed.

(** A chunk frame is neither [done] nor [error], whatever its content. *)
Lemma relay_chunks_types chunks tail f :
  f ∈ yielded (relay_chunks chunks tail) -> event_type f = Some (JStr "chunk").
Proof.
  induction chunks as [|chunk rest IH]; cbn; [intros H; inversion H|].
  destruct (truthy chunk); [|exact IH].
  destruct (py_strip chunk) as [stripped|e]; cbn; [|intros H; inversion H].
  destruct (str_truthy stripped); [|exact IH]. cbn.
  intros H. apply elem_of_cons in H as [->|H]; [reflexivity | exact (IH H)].
Qed.

(** Text that the agent yields before completing reaches the stream as
    one chunk frame per piece that is not blank. *)
Lemma relay_chunks_text texts :
  relay_chunks (relayed_items (Run (map PStr texts) None)) None =
    Run (map (fun t => chunk_frame (PStr t))
           (filter (fun t => blank t = false) texts)) None.
Proof.
  unfold relayed_items. cbn [yielded ending]. rewrite app_nil_r.
  induction texts as [|t rest IH]; [reflexivity|].
  cbn [map]. destruct (blank t) eqn:Hb.
  - rewrite (filter_cons_False (fun t => blank t = false))
      by (rewrite Hb; discriminate).
    rewrite <- IH. destruct (str_truthy t) eqn:Ht.
    + rewrite filter_cons_True by exact Ht. cbn [relay_chunks truthy py_strip].
      now rewrite Ht, strip_truthy, Hb.
    + now rewrite filter_cons_False by (cbn; rewrite Ht; discriminate).
  - assert (Ht : str_truthy t = true) by (destruct t; [discriminate | reflexivity]).
    rewrite (filter_cons_True (fun t => blank t = false)) by exact Hb.
    rewrite filter_cons_True by exact Ht. cbn [relay_chunks truthy py_strip map].
    now rewrite Ht, strip_truthy, Hb, IH.
Qed.

(** ** Reachable states *)

Lemma registry_ok_same w w' :
  sessions w' = sessions w -> registry_ok w -> registry_ok w'.
Proof. unfold registry_ok. intros ->. trivial. Qed.

Lemma create_session_ok cu w :
  registry_ok w -> registry_ok (snd (create_session cu w)).
Proof.
  intros Hok k meta. rewrite create_session_eq. cbn [snd sessions].
  destruct (decide (next_session_id w = k)) as [<-|Hne].
  - intros _. apply uuid4_is_uuid4.
  - rewrite lookup_insert_ne by exact Hne. apply Hok.
Qed.

Lemma session_or_new_ok cu session_id w :
  registry_ok w -> registry_ok (snd (session_or_new cu session_id w)).
Proof.
  intros Hok.
  destruct (session_or_new_spec cu session_id w)
    as (sid & w1 & meta & Hs & _ & _ & _ & [(_ & _ & ->)|(_ & _ & ->)]);
    rewrite Hs; cbn [snd]; [exact Hok | now apply create_session_ok].
Qed.

Lemma sync_get_response_ok cu message session_id username w :
  registry_ok w ->
  registry_ok (snd (sync_get_response cu message session_id username w)).
Proof.
  intros Hok.
  destruct (sync_get_response_spec cu message session_id username w)
    as (sid & w1 & call & Hs & _ & _ & ->).
  apply (registry_ok_same w1); [reflexivity|].
  pose proof (session_or_new_ok cu session_id w Hok) as H. now rewrite Hs in H.
Qed.

Lemma generate_stream_ok cu message session_id w :
  registry_ok w -> registry_ok (snd (generate_stream cu message session_id w)).
Proof.
  intros Hok.
  destruct (generate_stream_spec cu message session_id w)
    as (sid & w1 & call & Hs & _ & _ & ->).
  apply (registry_ok_same w1); [reflexivity|].
  pose proof (session_or_new_ok cu session_id w Hok) as H. now rewrite Hs in H.
Qed.

Lemma chat_api_ok cu data w :
  registry_ok w -> registry_ok (snd (chat_api cu data w)).
Proof.
  intros Hok. unfold chat_api, failure_tolerant, try_except.
  destruct (negb _); [exact Hok|]. unfold bind.
  pose proof (sync_get_response_ok cu (strip (default EmptyString (req_message data)))
                (req_session_id data) (Some (resolve_username cu)) w Hok) as H.
  destruct (sync_get_response _ _ _ _ w) as [[[response sid]|e] w2];
    cbn in H |- *; exact H.
Qed.

Lemma chat_stream_api_ok cu data w :
  registry_ok w -> registry_ok (snd (chat_stream_api cu data w)).
Proof.
  intros Hok. unfold chat_stream_api, failure_tolerant, try_except.
  destruct (negb _); [exact Hok|].
  pose proof (generate_stream_ok cu (strip (default EmptyString (req_message data)))
                (req_session_id data) w Hok) as H.
  destruct (generate_stream _ _ _ w) as [frames w1]. exact H.
Qed.

Lemma clear_session_ok data w :
  registry_ok w -> registry_ok (snd (clear_session data w)).
Proof.
  intros Hok. unfold clear_session, failure_tolerant, try_except.
  destruct (req_session_id data) as [sid|]; [|exact Hok].
  destruct (str_truthy sid && has_session w sid); [|exact Hok].
  intros k meta. cbn [snd sessions]. intros H.
  apply lookup_delete_Some in H as [_ H]. exact (Hok k meta H).
Qed.

Lemma serve_ok cu r w : registry_ok w -> registry_ok (snd (serve cu r w)).
Proof.
  intros Hok. unfold serve, admin_only.
  destruct cu as [[[] name]|]; try exact Hok.
  destruct r as [|data|data|data].
  - apply create_session_ok, Hok.
  - now apply chat_api_ok.
  - now apply chat_stream_api_ok.
  - now apply clear_session_ok.
Qed.

(** For an authenticated caller a route is its handler. *)
Lemma serve_authenticated name r :
  serve (Some (User true name)) r =
    match r with
    | NewSession => new_session (Some (User true name))
    | Chat data => chat_api (Some (User true name)) data
    | ChatStream data => chat_stream_api (Some (User true name)) data
    | ClearSession data => clear_session data
    end.
Proof. reflexivity. Qed.

(** Any other caller is turned away before a handler runs, and nothing
    changes. *)
Lemma serve_unauthenticated cu r w :
  match cu with
  | Some u => is_authenticated u = false
  | None => True
  end ->
  serve cu r w = (Return (Json 401 [("error", JStr "Authentication required")]), w).
Proof.
  unfold serve, admin_only. destruct cu as [u|]; [|reflexivity].
  now intros ->.
Qed.

(** In every state the process can reach, the keys of the registry are
    well-formed tokens; in particular none is the empty string. *)
Lemma reachable_registry_ok w : reachable w -> registry_ok w.
Proof.
  induction 1 as [|w cu r _ IH].
  - intros k meta H. cbn in H. rewrite lookup_empty in H. discriminate.
  - now apply serve_ok.
Qed.

Lemma reachable_key_truthy w k meta :
  reachable w -> sessions w !! k = Some meta -> str_truthy k = true.
Proof.
  intros Hr Hk. apply is_uuid4_truthy.
  exact (reachable_registry_ok w Hr k meta Hk).
Qed.

Lemma append_empty_r s : s +:+ EmptyString = s.
Proof.
  induction s as [|c r IH]; [reflexivity|].
  change (String c (r +:+ EmptyString) = String c r). now rewrite IH.
Qed.

Lemma append_assoc s t u : (s +:+ t) +:+ u = s +:+ (t +:+ u).
Proof.
  induction s as [|c r IH]; [reflexivity|].
  change (String c ((r +:+ t) +:+ u) = String c (r +:+ (t +:+ u))).
  now rewrite IH.
Qed.

(** Dropping the empty pieces does not change the concatenation. *)
Lemma join_truthy_text texts :
  join (filter (fun chunk => truthy chunk = true) (map PStr texts)) =
    Return (concat_text texts).
Proof.
  induction texts as [|t rest IH]; [reflexivity|].
  cbn [map]. destruct (str_truthy t) eqn:Ht.
  - rewrite filter_cons_True by exact Ht. simpl. now rewrite IH.
  - rewrite filter_cons_False by (simpl; rewrite Ht; discriminate).
    rewrite IH. destruct t; [reflexivity | discriminate].
Qed.

(** Joining items that end with one more piece of text. *)
Lemma join_snoc parts text :
  join (parts ++ [PStr text]) =
    match join parts with
    | Return joined => Return (joined +:+ text)
    | Raise e => Raise e
    end.
Proof.
  induction parts as [|part rest IH]; simpl.
  - now rewrite append_empty_r.
  - destruct part; try reflexivity. rewrite IH.
    destruct (join rest); [|reflexivity].
    now rewrite append_assoc.
Qed.

(** ** The claims *)

(** C4. One-shot path, agent completing normally: one call of the agent
    is made for the message; if the run of that call yields the pieces of
    text [texts] and then ends normally, [sync_get_response] returns
    their concatenation, in order, paired with the session id the agent
    was called with. *)
Theorem sync_get_response_concatenates cu message session_id username w :
  exists call w',
    agent_calls w' = agent_calls w ++ [call]
    /\ call_message call = message
    /\ forall texts,
         get_stream_agent_responce (length (agent_calls w)) call
           = Run (map PStr texts) None ->
         sync_get_response cu message session_id username w
           = (Return (concat_text texts, call_session_id call), w').
Proof.
  destruct (sync_get_response_spec cu message session_id username w)
    as (sid & w1 & call & Hs & Hcs & Hcm & Heq).
  exists call, (World (sessions w1) (draws w1) (ticks w1) (agent_calls w ++ [call])).
  split; [reflexivity|]. split; [exact Hcm|].
  intros texts Hrun. rewrite Heq, Hrun, Hcs.
  unfold relayed_items. cbn [yielded ending].
  now rewrite app_nil_r, join_truthy_text.
Qed.

(** C1, as the code has it. One-shot path, agent raising: the exception
    never leaves [sync_get_response]; the session id returned is a
    non-empty key of the registry (the one the agent was called with);
    the response is the text received before the failure followed by
    [error_message], and it is [fallback_response] only when an item
    that is not text made the join fail. *)
Theorem sync_get_response_agent_raises cu message session_id username w :
  exists call w',
    agent_calls w' = agent_calls w ++ [call]
    /\ call_message call = message
    /\ is_Some (sessions w' !! call_session_id call)
    /\ str_truthy (call_session_id call) = true
    /\ forall chunks e,
         get_stream_agent_responce (length (agent_calls w)) call
           = Run chunks (Some e) ->
         sync_get_response cu message session_id username w
           = (Return
                (match join (filter (fun chunk => truthy chunk = true) chunks) with
                 | Return text => text +:+ error_message
                 | Raise _ => fallback_response
                 end, call_session_id call), w').
Proof.
  destruct (sync_get_response_spec cu message session_id username w)
    as (sid & w1 & call & Hs & Hcs & Hcm & Heq).
  destruct (session_or_new_spec cu session_id w)
    as (sid' & w1' & meta & Hs' & Hm & Ht & _).
  rewrite Hs in Hs'. injection Hs' as <- <-.
  exists call, (World (sessions w1) (draws w1) (ticks w1) (agent_calls w ++ [call])).
  split; [reflexivity|]. split; [exact Hcm|].
  rewrite Hcs. cbn [sessions]. split; [eauto|]. split; [exact Ht|].
  intros chunks e Hrun. rewrite Heq, Hrun.
  unfold relayed_items. cbn [yielded ending]. rewrite join_snoc.
  destruct (join (filter _ chunks)); reflexivity.
Qed.

(** A message that is not blank gets a stream as its response: the
    frames of [generate_stream] for the stripped message. *)
Lemma chat_stream_api_stream cu data message w :
  req_message data = Some message -> blank message = false ->
  chat_stream_api cu data w =
    (Return (Stream (fst (generate_stream cu (strip message) (req_session_id data) w))),
     snd (generate_stream cu (strip message) (req_session_id data) w)).
Proof.
  intros Hm Hb. unfold chat_stream_api, failure_tolerant, try_except.
  rewrite Hm. cbn [from_option id]. rewrite strip_truthy, Hb. cbn [negb].
  now destruct (generate_stream _ _ _ w).
Qed.

(** C2, as the code has it. Streaming endpoint, message not blank, agent
    raising before it yields anything: the failure is answered inside
    [get_response_stream], so the stream is the [session] frame, one
    [chunk] frame carrying [error_message], and the [done] frame; there
    is no [error] frame. *)
Theorem chat_stream_agent_raises_at_once cu data message w :
  req_message data = Some message -> blank message = false ->
  exists call w',
    agent_calls w' = agent_calls w ++ [call]
    /\ call_message call = strip message
    /\ forall e,
         get_stream_agent_responce (length (agent_calls w)) call
           = Run [] (Some e) ->
         chat_stream_api cu data w
           = (Return (Stream [session_frame (call_session_id call);
                              chunk_frame (PStr error_message);
                              done_frame]), w').
Proof.
  intros Hm Hb. rewrite (chat_stream_api_stream cu data message w Hm Hb).
  destruct (generate_stream_spec cu (strip message) (req_session_id data) w)
    as (sid & w1 & call & Hs & Hcs & Hcm & Heq).
  exists call, (World (sessions w1) (draws w1) (ticks w1) (agent_calls w ++ [call])).
  split; [reflexivity|]. split; [exact Hcm|].
  intros e Hrun. rewrite Heq, Hrun, Hcs. reflexivity.
Qed.

(** C3, as the code has it. Streaming endpoint, message not blank, agent
    yielding the pieces of text [texts] and completing: the stream is
    one [session] frame, then one [chunk] frame for every piece that has
    a character other than whitespace, in order, then the [done] frame.
    Pieces that are empty or made of whitespace only leave no frame. *)
Theorem chat_stream_agent_completes cu data message w :
  req_message data = Some message -> blank message = false ->
  exists call w',
    agent_calls w' = agent_calls w ++ [call]
    /\ call_message call = strip message
    /\ forall texts,
         get_stream_agent_responce (length (agent_calls w)) call
           = Run (map PStr texts) None ->
         chat_stream_api cu data w
           = (Return
                (Stream
                   (session_frame (call_session_id call)
                    :: map (fun t => chunk_frame (PStr t))
                         (filter (fun t => blank t = false) texts)
                    ++ [done_frame])), w').
Proof.
  intros Hm Hb. rewrite (chat_stream_api_stream cu data message w Hm Hb).
  destruct (generate_stream_spec cu (strip message) (req_session_id data) w)
    as (sid & w1 & call & Hs & Hcs & Hcm & Heq).
  exists call, (World (sessions w1) (draws w1) (ticks w1) (agent_calls w ++ [call])).
  split; [reflexivity|]. split; [exact Hcm|].
  intros texts Hrun. rewrite Heq, Hrun, Hcs, relay_chunks_text. reflexivity.
Qed.

(** C8. Streaming endpoint, message not blank: the response is a stream
    of finitely many frames, and a frame of type [error] can only be its
    last frame, so that neither [done] nor anything else follows it. *)
Theorem chat_stream_error_is_last cu data message w :
  req_message data = Some message -> blank message = false ->
  exists frames w',
    chat_stream_api cu data w = (Return (Stream frames), w')
    /\ forall i f,
         frames !! i = Some f -> event_type f = Some (JStr "error") ->
         S i = length frames.
Proof.
  intros Hm Hb. rewrite (chat_stream_api_stream cu data message w Hm Hb).
  destruct (generate_stream_spec cu (strip message) (req_session_id data) w)
    as (sid & w1 & call & _ & _ & _ & Heq).
  rewrite Heq. cbn [fst snd]. eexists _, _. split; [reflexivity|].
  set (events := relay_chunks _ None).
  intros i f Hi Hf. destruct i as [|i]; cbn in Hi.
  - injection Hi as <-. discriminate Hf.
  - rewrite length_cons, length_app. cbn [length].
    apply lookup_app_Some in Hi as [Hi|[Hlen Hi]].
    + apply list_elem_of_lookup_2, relay_chunks_types in Hi.
      rewrite Hi in Hf. discriminate Hf.
    + destruct (i - length (yielded events)) as [|j] eqn:Hj; [lia|].
      destruct j; discriminate Hi.
Qed.

(** C5. [clear_session] in a reachable state: an id that is not in the
    registry gets the 404 answer and nothing changes; an id that is in
    the registry gets the success answer, its entry (and only its entry)
    is deleted, and clearing the same id once more gets the 404 answer. *)
Theorem clear_session_registry data sid w :
  reachable w -> req_session_id data = Some sid ->
  (sessions w !! sid = None ->
     clear_session data w
       = (Return (Json 404 [("error", JStr "Session not found")]), w))
  /\ (forall meta, sessions w !! sid = Some meta ->
        exists w',
          clear_session data w
            = (Return (Json 200 [("message", JStr "Session cleared successfully")]), w')
          /\ sessions w' = delete sid (sessions w)
          /\ clear_session data w'
               = (Return (Json 404 [("error", JStr "Session not found")]), w')).
Proof.
  intros Hr Hd. unfold clear_session, failure_tolerant, try_except.
  rewrite Hd. split.
  - intros Hnone. unfold has_session. rewrite Hnone.
    now destruct (str_truthy sid).
  - intros meta Hsome. unfold has_session at 1. rewrite Hsome.
    rewrite (reachable_key_truthy w sid meta Hr Hsome). cbn [andb].
    eexists. split; [reflexivity|]. split; [reflexivity|].
    unfold has_session. cbn [sessions]. rewrite lookup_delete_eq.
    now destruct (str_truthy sid).
Qed.

(** C6. A message that is missing, empty or made of whitespace only is
    turned down by both chat handlers with status 400 and the body
    [{'error': 'Message is required'}]; the world is left as it was, so
    the agent has not been called. *)
Theorem blank_message_rejected cu data w :
  blank (default EmptyString (req_message data)) = true ->
  chat_api cu data w
    = (Return (Json 400 [("error", JStr "Message is required")]), w)
  /\ chat_stream_api cu data w
       = (Return (Json 400 [("error", JStr "Message is required")]), w).
Proof.
  intros Hb. unfold chat_api, chat_stream_api, failure_tolerant, try_except.
  rewrite (strip_blank _ Hb). split; reflexivity.
Qed.

(** C9. [sync_get_response] on a session id that is in the registry of a
    reachable state returns that very id, whatever the agent does, and
    the registry afterwards is the registry before. *)
Theorem sync_get_response_keeps_known_session cu message sid username w meta :
  reachable w -> sessions w !! sid = Some meta ->
  exists response w',
    sync_get_response cu message (Some sid) username w
      = (Return (response, sid), w')
    /\ sessions w' = sessions w.
Proof.
  intros Hr Hm.
  pose proof (reachable_key_truthy w sid meta Hr Hm) as Ht.
  destruct (sync_get_response_spec cu message (Some sid) username w)
    as (sid' & w1 & call & Hs & _ & _ & Heq).
  unfold session_or_new, has_session in Hs. rewrite Ht, Hm in Hs.
  injection Hs as <- <-. rewrite Heq. eexists _, _. split; reflexivity.
Qed.

Lemma needs_session_unknown w session_id :
  match session_id with
  | None => True
  | Some s => sessions w !! s = None
  end ->
  needs_session w session_id = true.
Proof.
  destruct session_id as [s|]; [|reflexivity].
  intros H. unfold needs_session, has_session. rewrite H. apply orb_true_r.
Qed.

(** The next id has been issued before exactly when the UUID of the next
    draw is the UUID of an earlier draw. *)
Lemma next_session_id_issued w :
  In (next_session_id w) (issued w) <->
  exists k, k < draws w /\ uuid4 (urandom k) = uuid4 (urandom (draws w)).
Proof.
  unfold issued, next_session_id. rewrite in_map_iff. split.
  - intros (k & Hk & Hin). apply in_seq in Hin. exists k. split; [lia|].
    apply uuid_str_inj; [apply uuid4_lt..|exact Hk].
  - intros (k & Hk & Heq). exists k. split; [now rewrite Heq|].
    apply in_seq. lia.
Qed.

Lemma issued_create_session cu w :
  issued (snd (create_session cu w)) = issued w ++ [next_session_id w].
Proof.
  rewrite create_session_eq. unfold issued, next_session_id. cbn [snd draws].
  now rewrite seq_S, map_app.
Qed.

(** C7, as the code has it. A chat request, one-shot or streaming, whose
    session id is absent or not a key of the registry is not an error:
    [create_session] draws a new id, a well-formed version-4 UUID, stores
    it with the clock reading and the resolved user name, and the
    request goes on under it (the agent is called with it, the one-shot
    path returns it, the stream announces it). No comparison with
    earlier ids is made: the new id differs from all ids issued before
    exactly when the UUID of this draw differs from the UUID of every
    earlier draw. *)
Theorem unknown_session_gets_new_id cu message session_id username w :
  match session_id with
  | None => True
  | Some s => sessions w !! s = None
  end ->
  let new_id := next_session_id w in
  let registry' :=
    <[new_id := Session (clock (ticks w)) (resolve_username cu)]> (sessions w) in
  is_uuid4 new_id = true
  /\ (exists response call w',
        sync_get_response cu message session_id username w
          = (Return (response, new_id), w')
        /\ sessions w' = registry'
        /\ agent_calls w' = agent_calls w ++ [call]
        /\ call_session_id call = new_id
        /\ issued w' = issued w ++ [new_id])
  /\ (exists frames call w',
        generate_stream cu message session_id w
          = (session_frame new_id :: frames, w')
        /\ sessions w' = registry'
        /\ agent_calls w' = agent_calls w ++ [call]
        /\ call_session_id call = new_id
        /\ issued w' = issued w ++ [new_id])
  /\ (~ In new_id (issued w) <->
      forall k, k < draws w -> uuid4 (urandom k) <> uuid4 (urandom (draws w))).
Proof.
  intros Hunknown new_id registry'.
  apply needs_session_unknown in Hunknown.
  assert (Hnew : session_or_new cu session_id w = create_session cu w).
  { destruct (session_or_new_spec cu session_id w)
      as (sid & w1 & meta & Hs & _ & _ & _ & [(Hn & _)|(_ & -> & ->)]).
    - rewrite Hunknown in Hn. discriminate.
    - rewrite Hs. now rewrite create_session_eq. }
  rewrite create_session_eq in Hnew. fold new_id registry' in Hnew.
  split; [apply uuid4_is_uuid4|]. split; [|split].
  - destruct (sync_get_response_spec cu message session_id username w)
      as (sid & w1 & call & Hs & Hcs & _ & Heq).
    rewrite Hnew in Hs. injection Hs as <- <-.
    rewrite Heq. eexists _, call, _. split; [reflexivity|].
    cbn [sessions agent_calls]. repeat split; try assumption.
    unfold issued. cbn [draws]. now rewrite seq_S, map_app.
  - destruct (generate_stream_spec cu message session_id w)
      as (sid & w1 & call & Hs & Hcs & _ & Heq).
    rewrite Hnew in Hs. injection Hs as <- <-.
    rewrite Heq. eexists _, call, _. split; [reflexivity|].
    cbn [sessions agent_calls]. repeat split; try assumption.
    unfold issued. cbn [draws]. now rewrite seq_S, map_app.
  - unfold new_id. rewrite next_session_id_issued. split.
    + intros Hno k Hk Heq. apply Hno. eauto.
    + intros Hall (k & Hk & Heq). exact (Hall k Hk Heq).
Qed.

(** ** One request at a time *)

Lemma world_eta w :
  World (sessions w) (draws w + 0) (ticks w + 0) (agent_calls w ++ []) = w.
Proof. destruct w. cbn. now rewrite !Nat.add_0_r, app_nil_r. Qed.

(** What one call of [session_or_new] does to the world. *)
Lemma session_or_new_world cu session_id w :
  needs_session w session_id = false /\ snd (session_or_new cu session_id w) = w
  \/ needs_session w session_id = true
     /\ snd (session_or_new cu session_id w) = snd (create_session cu w).
Proof.
  destruct (session_or_new_spec cu session_id w)
    as (sid & w1 & meta & Hs & _ & _ & _ & [(Hn & _ & ->)|(Hn & _ & ->)]);
    rewrite Hs; [left | right]; now split.
Qed.

(** The world after the session is settled and the agent has been called
    once, [dt] readings of the clock later. *)
Lemma settled_world cu session_id w call dt :
  let w1 := snd (session_or_new cu session_id w) in
  exists reg d dt',
    World (sessions w1) (draws w1) (ticks w1 + dt) (agent_calls w ++ [call])
      = World reg (draws w + d) (ticks w + dt') (agent_calls w ++ [call])
    /\ (reg = sessions w /\ d = 0
        \/ (exists name,
              reg = <[next_session_id w := Session (clock (ticks w)) name]>
                      (sessions w))
           /\ d = 1 /\ 1 <= dt').
Proof.
  intros w1. subst w1.
  destruct (session_or_new_world cu session_id w) as [[_ ->]|[_ ->]].
  - exists (sessions w), 0, dt. split; [now rewrite Nat.add_0_r | now left].
  - rewrite create_session_eq. cbn [snd sessions draws ticks].
    eexists _, 1, (S dt). split; [f_equal; lia|]. right. split; [eauto | lia].
Qed.

(** What serving one request does to the world: the registry stays, or
    loses one entry, or gets the entry of the next id; the counters only
    go up; the agent is called at most once. *)
Lemma serve_world cu r w :
  exists reg d dt calls,
    snd (serve cu r w)
      = World reg (draws w + d) (ticks w + dt) (agent_calls w ++ calls)
    /\ length calls <= 1
    /\ (reg = sessions w /\ d = 0
        \/ (exists sid, reg = delete sid (sessions w)) /\ d = 0
        \/ (exists name,
              reg = <[next_session_id w := Session (clock (ticks w)) name]>
                      (sessions w))
           /\ d = 1 /\ 1 <= dt).
Proof.
  assert (Hsame : forall w0, w0 = w ->
    exists reg d dt calls,
      w0 = World reg (draws w + d) (ticks w + dt) (agent_calls w ++ calls)
      /\ length calls <= 1
      /\ (reg = sessions w /\ d = 0
          \/ (exists sid, reg = delete sid (sessions w)) /\ d = 0
          \/ (exists name,
                reg = <[next_session_id w := Session (clock (ticks w)) name]>
                        (sessions w))
             /\ d = 1 /\ 1 <= dt)).
  { intros w0 ->. exists (sessions w), 0, 0, []. rewrite world_eta.
    split; [reflexivity|]. split; [cbn; lia | now left]. }
  unfold serve, admin_only.
  destruct cu as [[[] name]|]; cbn [is_authenticated];
    try (apply Hsame; reflexivity).
  set (cu := Some (User true name)).
  destruct r as [|data|data|data].
  - unfold new_session, failure_tolerant, try_except, bind.
    rewrite create_session_eq. cbn [snd ret].
    eexists _, 1, 1, []. rewrite app_nil_r.
    split; [f_equal; lia|]. split; [cbn; lia|]. right. right.
    split; [eauto | lia].
  - unfold chat_api, failure_tolerant, try_except.
    destruct (negb _); [apply Hsame; reflexivity|]. unfold bind.
    destruct (sync_get_response_spec cu
                (strip (default EmptyString (req_message data)))
                (req_session_id data) (Some (resolve_username cu)) w)
      as (sid & w1 & call & Hs & _ & _ & ->).
    cbn [snd now sessions draws ticks agent_calls].
    assert (Hw1 : w1 = snd (session_or_new cu (req_session_id data) w))
      by now rewrite Hs.
    destruct (settled_world cu (req_session_id data) w call 1)
      as (reg & d & dt & Heq & Hshape).
    rewrite <- Hw1, Nat.add_1_r in Heq. rewrite Heq.
    exists reg, d, dt, [call]. split; [reflexivity|]. split; [cbn; lia|].
    destruct Hshape as [H|H]; [now left | now right; right].
  - unfold chat_stream_api, failure_tolerant, try_except.
    destruct (negb _); [apply Hsame; reflexivity|].
    destruct (generate_stream_spec cu
                (strip (default EmptyString (req_message data)))
                (req_session_id data) w)
      as (sid & w1 & call & Hs & _ & _ & ->).
    cbn [snd].
    assert (Hw1 : w1 = snd (session_or_new cu (req_session_id data) w))
      by now rewrite Hs.
    destruct (settled_world cu (req_session_id data) w call 0)
      as (reg & d & dt & Heq & Hshape).
    rewrite <- Hw1, Nat.add_0_r in Heq. rewrite Heq.
    exists reg, d, dt, [call]. split; [reflexivity|]. split; [cbn; lia|].
    destruct Hshape as [H|H]; [now left | now right; right].
  - unfold clear_session, failure_tolerant, try_except.
    destruct (req_session_id data) as [sid|]; [|apply Hsame; reflexivity].
    destruct (str_truthy sid && has_session w sid); [|apply Hsame; reflexivity].
    cbn [snd]. exists (delete sid (sessions w)), 0, 0, [].
    rewrite !Nat.add_0_r, app_nil_r.
    split; [reflexivity|]. split; [cbn; lia|]. right. left. eauto.
Qed.

Lemma issued_mono w w' k :
  draws w <= draws w' -> In k (issued w) -> In k (issued w').
Proof.
  unfold issued. rewrite !in_map_iff. intros Hle (i & Hi & Hin).
  exists i. split; [exact Hi|]. apply in_seq. apply in_seq in Hin. lia.
Qed.

Lemma registry_issued_serve cu r w :
  registry_issued w -> registry_issued (snd (serve cu r w)).
Proof.
  intros Hinv k meta.
  destruct (serve_world cu r w) as (reg & d & dt & calls & -> & _ & Hshape).
  cbn [sessions]. intros Hk.
  assert (Hold : forall meta', sessions w !! k = Some meta' ->
            In k (issued (World reg (draws w + d) (ticks w + dt)
                            (agent_calls w ++ calls)))
            /\ exists t, t < ticks w + dt /\ created_at meta' = clock t).
  { intros meta' Hw. destruct (Hinv k meta' Hw) as (Hin & t & Ht & Hc). split.
    - apply (issued_mono w); [cbn; lia | exact Hin].
    - exists t. split; [lia | exact Hc]. }
  destruct Hshape as [[-> _]|[[(sid & ->) _]|((name & ->) & -> & Hdt)]].
  - now apply Hold.
  - apply lookup_delete_Some in Hk as [_ Hk]. now apply Hold.
  - destruct (decide (next_session_id w = k)) as [<-|Hne].
    + rewrite lookup_insert_eq in Hk. injection Hk as <-. split.
      * unfold issued, next_session_id. cbn [draws]. apply in_map_iff.
        exists (draws w). split; [reflexivity|]. apply in_seq. lia.
      * exists (ticks w). cbn [ticks created_at]. split; [lia | reflexivity].
    + rewrite lookup_insert_ne in Hk by exact Hne. now apply Hold.
Qed.

(** X1. In every state the process can reach, every session of the
    registry goes back to a call of [create_session]: its key is one of
    the ids issued so far and is a well-formed version-4 UUID, and its
    [created_at] is a clock reading taken before now. *)
Theorem registry_sessions_were_issued w k meta :
  reachable w -> sessions w !! k = Some meta ->
  In k (issued w)
  /\ is_uuid4 k = true
  /\ exists t, t < ticks w /\ created_at meta = clock t.
Proof.
  intros Hr Hk.
  assert (Hinv : registry_issued w).
  { clear k meta Hk. induction Hr as [|w cu r _ IH].
    - intros k meta H. cbn in H. rewrite lookup_empty in H. discriminate.
    - now apply registry_issued_serve. }
  destruct (Hinv k meta Hk) as (Hin & Ht). split; [exact Hin|].
  split; [exact (reachable_registry_ok w Hr k meta Hk) | exact Ht].
Qed.

(** X2. Serving one request, whatever it is and whoever sends it, adds
    at most one session to the registry and draws at most one id; in a
    reachable state the registry holds no more sessions than ids have
    been issued. *)
Theorem registry_grows_by_at_most_one cu r w :
  size (sessions (snd (serve cu r w))) <= S (size (sessions w))
  /\ draws w <= draws (snd (serve cu r w)) <= S (draws w)
  /\ (reachable w -> size (sessions w) <= draws w).
Proof.
  assert (Hstep : forall cu r w,
            size (sessions (snd (serve cu r w))) + draws w
              <= size (sessions w) + draws (snd (serve cu r w))
            /\ draws w <= draws (snd (serve cu r w)) <= S (draws w)).
  { clear cu r w. intros cu r w.
    destruct (serve_world cu r w) as (reg & d & dt & calls & -> & _ & Hshape).
    cbn [sessions draws].
    destruct Hshape as [[-> ->]|[[(sid & ->) ->]|((name & ->) & -> & _)]].
    - lia.
    - rewrite map_size_delete. destruct (sessions w !! sid); cbn; lia.
    - rewrite map_size_insert.
      destruct (sessions w !! next_session_id w); cbn; lia. }
  destruct (Hstep cu r w) as [Hsize Hdraws].
  split; [lia|]. split; [exact Hdraws|]. clear Hsize Hdraws.
  induction 1 as [|w0 cu0 r0 _ IH].
  - cbn. rewrite map_size_empty. lia.
  - destruct (Hstep cu0 r0 w0). lia.
Qed.

(** ** The call of the agent *)

Lemma get_response_stream_call cu message sid given w meta :
  sessions w !! sid = Some meta -> str_truthy sid = true ->
  get_response_stream cu message (Some sid) given w =
    (Run (relayed_items
            (get_stream_agent_responce (length (agent_calls w))
               (AgentCall sid message md_uri (username_for_agent given meta))))
       None,
     World (sessions w) (draws w) (ticks w)
       (agent_calls w
          ++ [AgentCall sid message md_uri (username_for_agent given meta)])).
Proof.
  intros Hm Ht. unfold get_response_stream, session_or_new, has_session.
  rewrite Ht, Hm. cbn [negb orb]. unfold username_for_agent.
  destruct given as [u|]; [destruct (str_truthy u)|];
    unfold ret, session_username; rewrite ?Hm; reflexivity.
Qed.

(** What the one-shot path settles on, and the one call it makes. *)
Lemma sync_get_response_call cu message session_id given w :
  exists sid w1 meta,
    session_or_new cu session_id w = (Return sid, w1)
    /\ sessions w1 !! sid = Some meta
    /\ str_truthy sid = true
    /\ sync_get_response cu message session_id given w =
         (Return
            (match join (relayed_items
                           (get_stream_agent_responce (length (agent_calls w))
                              (AgentCall sid message md_uri
                                 (username_for_agent given meta)))) with
             | Return text => text
             | Raise _ => fallback_response
             end, sid),
          World (sessions w1) (draws w1) (ticks w1)
            (agent_calls w
               ++ [AgentCall sid message md_uri (username_for_agent given meta)])).
Proof.
  destruct (session_or_new_spec cu session_id w)
    as (sid & w1 & meta & Hs & Hm & Ht & Hc & _).
  exists sid, w1, meta. repeat split; try assumption.
  unfold sync_get_response, collect_response.
  rewrite Hs, (get_response_stream_call cu message sid given w1 meta Hm Ht), Hc.
  cbn [ending yielded].
  destruct (join _) as [text|e]; [reflexivity|].
  unfold sync_fallback, bind, ret. now rewrite Ht.
Qed.

(** What the stream settles on, and the one call it makes. *)
Lemma generate_stream_call cu message session_id w :
  exists sid w1 meta,
    session_or_new cu session_id w = (Return sid, w1)
    /\ sessions w1 !! sid = Some meta
    /\ str_truthy sid = true
    /\ generate_stream cu message session_id w =
         (let events :=
            relay_chunks
              (relayed_items
                 (get_stream_agent_responce (length (agent_calls w))
                    (AgentCall sid message md_uri
                       (username_for_agent (Some (resolve_username cu)) meta))))
              None in
          session_frame sid :: yielded events
            ++ [match ending events with
                | None => done_frame
                | Some _ => error_frame
                end],
          World (sessions w1) (draws w1) (ticks w1)
            (agent_calls w
               ++ [AgentCall sid message md_uri
                     (username_for_agent (Some (resolve_username cu)) meta)])).
Proof.
  destruct (session_or_new_spec cu session_id w)
    as (sid & w1 & meta & Hs & Hm & Ht & Hc & _).
  exists sid, w1, meta. repeat split; try assumption.
  unfold generate_stream, stream_response.
  rewrite Hs, (get_response_stream_call cu message sid
                 (Some (resolve_username cu)) w1 meta Hm Ht), Hc.
  reflexivity.
Qed.

Lemma not_blank_message data :
  negb (str_truthy (strip (default EmptyString (req_message data)))) = false ->
  exists message, req_message data = Some message /\ blank message = false.
Proof.
  rewrite strip_truthy, negb_involutive.
  destruct (req_message data) as [message|]; [eauto | discriminate].
Qed.

(** The calls of the agent that serving one request adds. *)
Lemma serve_agent_calls cu r w :
  exists calls,
    agent_calls (snd (serve cu r w)) = agent_calls w ++ calls
    /\ length calls <= 1
    /\ (forall call, In call calls ->
          (exists u, cu = Some u /\ is_authenticated u = true)
          /\ (exists data message,
                (r = Chat data \/ r = ChatStream data)
                /\ req_message data = Some message
                /\ blank message = false
                /\ call_message call = strip message)
          /\ call_md_uri call = md_uri
          /\ is_Some (sessions (snd (serve cu r w)) !! call_session_id call))
    /\ (forall u data message,
          cu = Some u -> is_authenticated u = true ->
          r = Chat data \/ r = ChatStream data ->
          req_message data = Some message -> blank message = false ->
          length calls = 1).
Proof.
  assert (Hnone : forall w0, w0 = w ->
            (forall u data message,
               cu = Some u -> is_authenticated u = true ->
               r = Chat data \/ r = ChatStream data ->
               req_message data = Some message -> blank message = false ->
               False) ->
            exists calls,
              agent_calls w0 = agent_calls w ++ calls
              /\ length calls <= 1
              /\ (forall call, In call calls ->
                    (exists u, cu = Some u /\ is_authenticated u = true)
                    /\ (exists data message,
                          (r = Chat data \/ r = ChatStream data)
                          /\ req_message data = Some message
                          /\ blank message = false
                          /\ call_message call = strip message)
                    /\ call_md_uri call = md_uri
                    /\ is_Some (sessions w0 !! call_session_id call))
              /\ (forall u data message,
                    cu = Some u -> is_authenticated u = true ->
                    r = Chat data \/ r = ChatStream data ->
                    req_message data = Some message -> blank message = false ->
                    length calls = 1)).
  { intros w0 -> Hno. exists []. rewrite app_nil_r.
    split; [reflexivity|]. split; [cbn; lia|]. split; [intros call []|].
    intros u data message H1 H2 H3 H4 H5.
    destruct (Hno u data message H1 H2 H3 H4 H5). }
  assert (Hblank : forall data message,
            negb (str_truthy (strip (default EmptyString (req_message data)))) = true ->
            req_message data = Some message -> blank message = false -> False).
  { intros data message Hn Hm Hb. rewrite Hm in Hn. cbn [from_option id] in Hn.
    rewrite strip_truthy, Hb in Hn. discriminate. }
  unfold serve, admin_only.
  destruct cu as [[auth name]|].
  2:{ apply Hnone; [reflexivity | discriminate]. }
  destruct auth; cbn [is_authenticated].
  2:{ apply Hnone; [reflexivity|]. intros u data message [= <-]. discriminate. }
  set (cu := Some (User true name)).
  destruct r as [|data|data|data].
  - unfold new_session, failure_tolerant, try_except, bind.
    rewrite create_session_eq. cbn [snd ret].
    exists []. cbn [agent_calls]. rewrite app_nil_r.
    split; [reflexivity|]. split; [cbn; lia|]. split; [intros call []|].
    intros u data message _ _ [|]; discriminate.
  - unfold chat_api, failure_tolerant, try_except.
    destruct (negb _) eqn:Hn.
    { apply Hnone; [reflexivity|].
      intros u data' message _ _ [[= <-]|]; [|discriminate]. now apply Hblank. }
    destruct (not_blank_message data Hn) as (message & Hm & Hb).
    unfold bind.
    destruct (sync_get_response_call cu
                (strip (default EmptyString (req_message data)))
                (req_session_id data) (Some (resolve_username cu)) w)
      as (sid & w1 & meta & _ & Hmeta & _ & ->).
    cbn [snd now sessions draws ticks agent_calls].
    eexists [_]. split; [reflexivity|]. split; [cbn; lia|]. split.
    + intros call [<-|[]]. cbn [call_message call_md_uri call_session_id].
      split; [eauto|]. split; [|split; [reflexivity | eauto]].
      exists data, message. rewrite Hm. cbn [from_option id]. auto.
    + reflexivity.
  - unfold chat_stream_api, failure_tolerant, try_except.
    destruct (negb _) eqn:Hn.
    { apply Hnone; [reflexivity|].
      intros u data' message _ _ [|[= <-]]; [discriminate|]. now apply Hblank. }
    destruct (not_blank_message data Hn) as (message & Hm & Hb).
    destruct (generate_stream_call cu
                (strip (default EmptyString (req_message data)))
                (req_session_id data) w)
      as (sid & w1 & meta & _ & Hmeta & _ & ->).
    cbn [snd sessions agent_calls].
    eexists [_]. split; [reflexivity|]. split; [cbn; lia|]. split.
    + intros call [<-|[]]. cbn [call_message call_md_uri call_session_id].
      split; [eauto|]. split; [|split; [reflexivity | eauto]].
      exists data, message. rewrite Hm. cbn [from_option id]. auto.
    + reflexivity.
  - assert (Hcalls : agent_calls (snd (clear_session data w)) = agent_calls w).
    { unfold clear_session, failure_tolerant, try_except.
      destruct (req_session_id data) as [sid|]; [|reflexivity].
      now destruct (str_truthy sid && has_session w sid). }
    exists []. rewrite app_nil_r.
    split; [exact Hcalls|]. split; [cbn; lia|]. split; [intros call []|].
    intros u data' message _ _ [|]; discriminate.
Qed.

(** X3. Serving one request calls the agent at most once. A call is made
    only for an authenticated chat request (one-shot or streaming) whose
    message is not blank, and then exactly once: with the stripped
    message, the database URI of the environment, and a session id that
    is in the registry afterwards. Creating or clearing a session, a
    blank message and an unauthenticated request never reach the
    agent. *)
Theorem agent_called_only_for_chat cu r w :
  exists calls,
    agent_calls (snd (serve cu r w)) = agent_calls w ++ calls
    /\ length calls <= 1
    /\ (forall call, In call calls ->
          (exists u, cu = Some u /\ is_authenticated u = true)
          /\ (exists data message,
                (r = Chat data \/ r = ChatStream data)
                /\ req_message data = Some message
                /\ blank message = false
                /\ call_message call = strip message)
          /\ call_md_uri call = md_uri
          /\ is_Some (sessions (snd (serve cu r w)) !! call_session_id call))
    /\ (forall u data message,
          cu = Some u -> is_authenticated u = true ->
          r = Chat data \/ r = ChatStream data ->
          req_message data = Some message -> blank message = false ->
          length calls = 1).
Proof. exact (serve_agent_calls cu r w). Qed.

Lemma relayed_items_truthy agent :
  Forall (fun v => truthy v = true) (relayed_items agent).
Proof.
  unfold relayed_items. apply Forall_app. split.
  - apply Forall_forall. intros v Hv.
    now apply list_elem_of_filter in Hv as [Hv _].
  - destruct (ending agent); repeat constructor.
Qed.

(** [get_response_stream] once the session it is given is settled. *)
Lemma get_response_stream_settled cu message session_id given w sid w1 meta :
  session_or_new cu session_id w = (Return sid, w1) ->
  sessions w1 !! sid = Some meta ->
  get_response_stream cu message session_id given w =
    (Run (relayed_items
            (get_stream_agent_responce (length (agent_calls w1))
               (AgentCall sid message md_uri (username_for_agent given meta))))
       None,
     World (sessions w1) (draws w1) (ticks w1)
       (agent_calls w1
          ++ [AgentCall sid message md_uri (username_for_agent given meta)])).
Proof.
  intros Hs Hm. unfold get_response_stream. rewrite Hs.
  unfold username_for_agent.
  destruct given as [u|]; [destruct (str_truthy u)|];
    unfold ret, session_username; rewrite ?Hm; reflexivity.
Qed.

(** X4. [get_response_stream], for any message, session id, user name
    and agent: no exception escapes from the generator (the lookup
    [self.sessions[session_id]] cannot fail, the session having just
    been settled, and what the agent raises is answered), and every item
    it yields is truthy: an empty fragment of the agent is never passed
    on. *)
Theorem get_response_stream_never_raises cu message session_id given w :
  ending (fst (get_response_stream cu message session_id given w)) = None
  /\ Forall (fun v => truthy v = true)
       (yielded (fst (get_response_stream cu message session_id given w))).
Proof.
  destruct (session_or_new_spec cu session_id w)
    as (sid & w1 & meta & Hs & Hm & _).
  rewrite (get_response_stream_settled cu message session_id given w sid w1 meta
             Hs Hm).
  cbn [fst ending yielded]. split; [reflexivity | apply relayed_items_truthy].
Qed.

(** X5. [get_response_stream] calls the agent exactly once, with the
    message as given, the database URI of the environment, and a session
    that is in the registry afterwards. The user name it passes is the
    given one when that is truthy; otherwise it is the one stored with
    the session, which for a session created by this very call is the
    resolved name of the current user. *)
Theorem get_response_stream_agent_arguments cu message session_id given w :
  exists sid meta,
    sessions (snd (get_response_stream cu message session_id given w)) !! sid
      = Some meta
    /\ agent_calls (snd (get_response_stream cu message session_id given w))
       = agent_calls w
           ++ [AgentCall sid message md_uri (username_for_agent given meta)]
    /\ (needs_session w session_id = true ->
        sid = next_session_id w /\ username meta = resolve_username cu)
    /\ (needs_session w session_id = false ->
        session_id = Some sid /\ sessions w !! sid = Some meta).
Proof.
  destruct (session_or_new_spec cu session_id w)
    as (sid & w1 & meta & Hs & Hm & _ & Hc & Hcase).
  rewrite (get_response_stream_settled cu message session_id given w sid w1 meta
             Hs Hm).
  cbn [snd sessions agent_calls]. exists sid, meta.
  split; [exact Hm|]. split; [now rewrite Hc|].
  destruct Hcase as [(Hn & Hsid & ->)|(Hn & -> & ->)]; rewrite Hn.
  - split; [discriminate | intros _; now split].
  - split; [|discriminate]. intros _. split; [reflexivity|].
    rewrite create_session_eq in Hm. cbn [snd sessions] in Hm.
    rewrite lookup_insert_eq in Hm. now injection Hm as <-.
Qed.

(** ** Sessions across requests *)

Lemma known_session_settled cu sid w meta :
  sessions w !! sid = Some meta -> str_truthy sid = true ->
  session_or_new cu (Some sid) w = (Return sid, w).
Proof.
  intros Hm Ht. unfold session_or_new, has_session. now rewrite Ht, Hm.
Qed.

(** X6. [chat_api] on a message that is not blank always answers with
    status 200, never with 500: the body carries the response and the
    session id of [sync_get_response] for the stripped message and the
    resolved user name, and as time stamp the clock reading taken after
    the agent has answered; the session id is in the registry. *)
Theorem chat_api_answers cu data message w :
  req_message data = Some message -> blank message = false ->
  exists response sid w1,
    sync_get_response cu (strip message) (req_session_id data)
      (Some (resolve_username cu)) w = (Return (response, sid), w1)
    /\ is_Some (sessions w1 !! sid)
    /\ chat_api cu data w =
         (Return (Json 200 [("response", JStr response);
                            ("session_id", JStr sid);
                            ("timestamp", JIso (clock (ticks w1)))]),
          World (sessions w1) (draws w1) (S (ticks w1)) (agent_calls w1)).
Proof.
  intros Hm Hb.
  destruct (sync_get_response_call cu (strip message) (req_session_id data)
              (Some (resolve_username cu)) w)
    as (sid & w1 & meta & _ & Hmeta & _ & Heq).
  eexists _, sid, _. split; [exact Heq|]. cbn [sessions]. split; [eauto|].
  unfold chat_api, failure_tolerant, try_except.
  rewrite Hm. cbn [from_option id]. rewrite strip_truthy, Hb. cbn [negb].
  unfold bind. rewrite Heq. reflexivity.
Qed.

(** X7. A session id handed out by a chat request stays good: whether it
    was returned by [sync_get_response] or announced in the first frame
    of [generate_stream], sending it with a later request, right after,
    makes either path use that same id and leave the registry as it
    is. *)
Theorem handed_out_session_id_is_kept
    cu message session_id given w sid w1 cu' message' given' :
  (exists response,
     sync_get_response cu message session_id given w = (Return (response, sid), w1))
  \/ (exists frames,
        generate_stream cu message session_id w = (session_frame sid :: frames, w1)) ->
  (exists response' w2,
     sync_get_response cu' message' (Some sid) given' w1
       = (Return (response', sid), w2)
     /\ sessions w2 = sessions w1)
  /\ (exists frames' w2,
        generate_stream cu' message' (Some sid) w1
          = (session_frame sid :: frames', w2)
        /\ sessions w2 = sessions w1).
Proof.
  intros Hfirst.
  assert (Hknown : exists meta, sessions w1 !! sid = Some meta /\ str_truthy sid = true).
  { destruct Hfirst as [(response & H)|(frames & H)].
    - destruct (sync_get_response_call cu message session_id given w)
        as (sid0 & w0 & meta & _ & Hm & Ht & Heq).
      rewrite Heq in H. injection H as _ <- <-. cbn [sessions]. eauto.
    - destruct (generate_stream_call cu message session_id w)
        as (sid0 & w0 & meta & _ & Hm & Ht & Heq).
      rewrite Heq in H. injection H as <- _ <-. cbn [sessions]. eauto. }
  destruct Hknown as (meta & Hm & Ht).
  pose proof (known_session_settled cu' sid w1 meta Hm Ht) as Hs. split.
  - destruct (sync_get_response_call cu' message' (Some sid) given' w1)
      as (sid2 & w2 & meta2 & Hs2 & _ & _ & Heq).
    rewrite Hs in Hs2. injection Hs2 as <- <-.
    rewrite Heq. eexists _, _. split; reflexivity.
  - destruct (generate_stream_call cu' message' (Some sid) w1)
      as (sid2 & w2 & meta2 & Hs2 & _ & _ & Heq).
    rewrite Hs in Hs2. injection Hs2 as <- <-.
    rewrite Heq. eexists _, _. split; reflexivity.
Qed.

(** X8. [new_session] followed by [clear_session] on the id it returned:
    both answer with success, and the registry is the one before with
    that id removed; so it is the registry before whenever the id was
    not in it already. *)
Theorem new_session_then_clear_session cu data w :
  req_session_id data = Some (next_session_id w) ->
  exists w1 w2,
    new_session cu w =
      (Return (Json 200 [("session_id", JStr (next_session_id w));
                         ("status", JStr "created");
                         ("message", JStr "New session initialized")]), w1)
    /\ clear_session data w1 =
         (Return (Json 200 [("message", JStr "Session cleared successfully")]), w2)
    /\ sessions w2 = delete (next_session_id w) (sessions w)
    /\ (sessions w !! next_session_id w = None -> sessions w2 = sessions w).
Proof.
  intros Hd. unfold new_session, failure_tolerant, try_except, bind.
  rewrite create_session_eq. cbn [ret]. eexists _, _. split; [reflexivity|].
  unfold clear_session, failure_tolerant, try_except, has_session.
  rewrite Hd. cbn [sessions]. rewrite lookup_insert_eq.
  assert (Ht : str_truthy (next_session_id w) = true)
    by apply is_uuid4_truthy, uuid4_is_uuid4.
  rewrite Ht. cbn [andb].
  split; [reflexivity|]. cbn [sessions]. rewrite delete_insert_eq.
  split; [reflexivity|]. intros Hnone. now apply delete_id.
Qed.

(** X9. [new_session] always answers with status 200 and the next id, a
    well-formed version-4 UUID; it stores under that id the clock
    reading and the resolved name of the current user (replacing what an
    equal id held before), leaves every other session as it is, and does
    not call the agent. *)
Theorem new_session_creates_one_session cu w :
  exists w',
    new_session cu w =
      (Return (Json 200 [("session_id", JStr (next_session_id w));
                         ("status", JStr "created");
                         ("message", JStr "New session initialized")]), w')
    /\ is_uuid4 (next_session_id w) = true
    /\ sessions w' !! next_session_id w
       = Some (Session (clock (ticks w)) (resolve_username cu))
    /\ (forall k, k <> next_session_id w -> sessions w' !! k = sessions w !! k)
    /\ agent_calls w' = agent_calls w.
Proof.
  unfold new_session, failure_tolerant, try_except, bind.
  rewrite create_session_eq. cbn [ret]. eexists. split; [reflexivity|].
  split; [apply uuid4_is_uuid4|]. cbn [sessions agent_calls].
  split; [apply lookup_insert_eq|]. split; [|reflexivity].
  intros k Hk. now apply lookup_insert_ne.
Qed.

(** ** Items that are not text, and failures in mid-stream *)

Lemma join_non_text items item :
  In item items -> (forall s, item <> PStr s) -> join items = Raise TypeError.
Proof.
  intros Hin Hnt. induction items as [|head rest IH]; [destruct Hin|].
  destruct head as [| | |s]; try reflexivity.
  destruct Hin as [<-|Hin]; [now destruct (Hnt s)|].
  simpl. now rewrite (IH Hin).
Qed.

(** Text at the head of what [get_response_stream] yields is relayed
    piece by piece; what follows is relayed after it. *)
Lemma relay_chunks_text_app texts rest tail :
  relay_chunks
    (filter (fun chunk => truthy chunk = true) (map PStr texts) ++ rest) tail =
    Run (map (fun t => chunk_frame (PStr t))
           (filter (fun t => blank t = false) texts)
         ++ yielded (relay_chunks rest tail))
      (ending (relay_chunks rest tail)).
Proof.
  induction texts as [|t more IH].
  { cbn [map]. rewrite !filter_nil. cbn [app map].
    now destruct (relay_chunks rest tail). }
  cbn [map]. destruct (blank t) eqn:Hb.
  - rewrite (filter_cons_False (fun t => blank t = false))
      by (rewrite Hb; discriminate).
    rewrite <- IH. destruct (str_truthy t) eqn:Ht.
    + rewrite filter_cons_True by exact Ht.
      cbn [app relay_chunks truthy py_strip].
      now rewrite Ht, strip_truthy, Hb.
    + now rewrite filter_cons_False by (cbn; rewrite Ht; discriminate).
  - assert (Ht : str_truthy t = true) by (destruct t; [discriminate | reflexivity]).
    rewrite (filter_cons_True (fun t => blank t = false)) by exact Hb.
    rewrite filter_cons_True by exact Ht.
    cbn [app relay_chunks truthy py_strip map].
    now rewrite Ht, strip_truthy, Hb, IH.
Qed.


(** X11. One-shot path, an item that is truthy but not text among what
    the agent yields (however the agent ends): joining the items fails,
    and [sync_get_response] returns [fallback_response], still paired
    with the session id the agent was called with, and raises nothing. *)
Theorem sync_get_response_non_text_item cu message session_id given w :
  exists call w',
    agent_calls w' = agent_calls w ++ [call]
    /\ call_message call = message
    /\ forall chunks agent_ending item,
         get_stream_agent_responce (length (agent_calls w)) call
           = Run chunks agent_ending ->
         In item chunks -> truthy item = true -> (forall s, item <> PStr s) ->
         sync_get_response cu message session_id given w
           = (Return (fallback_response, call_session_id call), w').
Proof.
  destruct (sync_get_response_spec cu message session_id given w)
    as (sid & w1 & call & Hs & Hcs & Hcm & Heq).
  exists call, (World (sessions w1) (draws w1) (ticks w1) (agent_calls w ++ [call])).
  split; [reflexivity|]. split; [exact Hcm|].
  intros chunks agent_ending item Hrun Hin Ht Hnt.
  rewrite Heq, Hrun, Hcs. unfold relayed_items. cbn [yielded ending].
  rewrite (join_non_text _ item); [reflexivity| |exact Hnt].
  apply in_or_app. left. apply list_elem_of_In, list_elem_of_filter.
  split; [exact Ht | now apply list_elem_of_In].
Qed.


(** X13. Streaming endpoint, message not blank, the agent yielding the
    pieces of text [texts] and then raising: the stream is the [session]
    frame, the [chunk] frames of the pieces that are not blank, one more
    [chunk] frame carrying [error_message], and the [done] frame. *)
Theorem chat_stream_agent_raises_midway cu data message w :
  req_message data = Some message -> blank message = false ->
  exists call w',
    agent_calls w' = agent_calls w ++ [call]
    /\ call_message call = strip message
    /\ forall texts e,
         get_stream_agent_responce (length (agent_calls w)) call
           = Run (map PStr texts) (Some e) ->
         chat_stream_api cu data w
           = (Return
                (Stream
                   (session_frame (call_session_id call)
                    :: map (fun t => chunk_frame (PStr t))
                         (filter (fun t => blank t = false) texts)
                    ++ [chunk_frame (PStr error_message); done_frame])), w').
Proof.
  intros Hm Hb. rewrite (chat_stream_api_stream cu data message w Hm Hb).
  destruct (generate_stream_spec cu (strip message) (req_session_id data) w)
    as (sid & w1 & call & Hs & Hcs & Hcm & Heq).
  exists call, (World (sessions w1) (draws w1) (ticks w1) (agent_calls w ++ [call])).
  split; [reflexivity|]. split; [exact Hcm|].
  intros texts e Hrun.
  rewrite Heq, Hrun, Hcs. unfold relayed_items. cbn [yielded ending fst snd].
  rewrite relay_chunks_text_app.
  change (relay_chunks [PStr error_message] None)
    with (Run [chunk_frame (PStr error_message)] None).
  cbn [yielded ending]. now rewrite <- app_assoc.
Qed.

(** ** Stream and one-shot answer side by side *)

Lemma chunk_texts_of_chunks texts :
  chunk_texts (map (fun t => chunk_frame (PStr t)) texts) = texts.
Proof.
  induction texts as [|t rest IH]; [reflexivity|].
  cbn [map]. unfold chunk_texts in *. cbn [flat_map]. now rewrite IH.
Qed.

Lemma concat_text_not_blank texts :
  Forall (fun t => t = EmptyString \/ blank t = false) texts ->
  concat_text (filter (fun t => blank t = false) texts) = concat_text texts.
Proof.
  unfold concat_text.
  induction 1 as [|t rest [->|Hb] _ IH]; [reflexivity| |].
  - rewrite filter_cons_False by (cbn; discriminate). exact IH.
  - rewrite filter_cons_True by exact Hb. cbn [fold_right]. now rewrite IH.
Qed.

(** X14. An agent that yields the pieces of text [texts] and completes,
    asked once over each path from the same state: the one-shot response
    is the concatenation of all pieces, while the texts of the [chunk]
    frames of the stream are the pieces that are not blank, in order. So
    reading the stream gives the one-shot response whenever no piece
    consists of whitespace only. *)
Theorem stream_text_and_one_shot_response
    cu message session_id given cu' message' session_id' w texts :
  (forall call,
     get_stream_agent_responce (length (agent_calls w)) call
       = Run (map PStr texts) None) ->
  exists sid w1 frames w2,
    sync_get_response cu message session_id given w
      = (Return (concat_text texts, sid), w1)
    /\ generate_stream cu' message' session_id' w = (frames, w2)
    /\ chunk_texts frames = filter (fun t => blank t = false) texts
    /\ (Forall (fun t => t = EmptyString \/ blank t = false) texts ->
        concat_text (chunk_texts frames) = concat_text texts).
Proof.
  intros Hrun.
  destruct (sync_get_response_spec cu message session_id given w)
    as (sid & w1 & call & _ & _ & _ & Hsync).
  destruct (generate_stream_spec cu' message' session_id' w)
    as (sid' & w1' & call' & _ & _ & _ & Hgen).
  rewrite Hrun in Hsync, Hgen. rewrite relay_chunks_text in Hgen.
  cbn [yielded ending] in Hgen.
  unfold relayed_items in Hsync. cbn [yielded ending] in Hsync.
  rewrite app_nil_r, join_truthy_text in Hsync.
  eexists _, _, _, _. split; [exact Hsync|]. split; [exact Hgen|].
  assert (Htexts :
    chunk_texts
      (session_frame sid'
       :: map (fun t => chunk_frame (PStr t))
            (filter (fun t => blank t = false) texts) ++ [done_frame])
    = filter (fun t => blank t = false) texts).
  { unfold chunk_texts. cbn [flat_map]. rewrite flat_map_app.
    fold (chunk_texts (map (fun t => chunk_frame (PStr t))
                         (filter (fun t => blank t = false) texts))).
    rewrite chunk_texts_of_chunks. cbn. now rewrite app_nil_r. }
  split; [exact Htexts|].
  intros Hall. rewrite Htexts. now apply concat_text_not_blank.
Qed.

(** ** The message the agent receives *)

Lemma lstrip_first s c : first_char (lstrip s) = Some c -> isspace c = false.
Proof.
  induction s as [|a r IH]; simpl; [discriminate|].
  destruct (isspace a) eqn:Ha; [exact IH|].
  simpl. intros [= <-]. exact Ha.
Qed.

Lemma rstrip_first s c : first_char (rstrip s) = Some c -> first_char s = Some c.
Proof.
  destruct s as [|a r]; simpl; [discriminate|].
  destruct (rstrip r); [destruct (isspace a)|]; simpl; congruence.
Qed.

Lemma rstrip_last s c : last_char (rstrip s) = Some c -> isspace c = false.
Proof.
  induction s as [|a r IH]; simpl; [discriminate|].
  destruct (rstrip r) as [|b r'] eqn:Hr.
  - destruct (isspace a) eqn:Ha; simpl; [discriminate|].
    intros [= <-]. exact Ha.
  - exact IH.
Qed.

Lemma rstrip_idempotent s : rstrip (rstrip s) = rstrip s.
Proof.
  induction s as [|a r IH]; simpl; [reflexivity|].
  destruct (rstrip r) as [|b r'] eqn:Hr.
  - destruct (isspace a) eqn:Ha; simpl; [reflexivity|]. now rewrite Ha.
  - change (rstrip (String a (String b r'))) with
      (match rstrip (String b r') with
       | EmptyString => if isspace a then EmptyString else String a EmptyString
       | r'' => String a r''
       end).
    now rewrite IH.
Qed.

Lemma lstrip_unchanged s :
  (forall c, first_char s = Some c -> isspace c = false) -> lstrip s = s.
Proof.
  destruct s as [|a r]; simpl; [reflexivity|].
  intros H. now rewrite (H a eq_refl).
Qed.

Lemma strip_idempotent s : strip (strip s) = strip s.
Proof.
  unfold strip. rewrite (lstrip_unchanged (rstrip (lstrip s))).
  - apply rstrip_idempotent.
  - intros c Hc. apply (lstrip_first s), rstrip_first, Hc.
Qed.

(** X15. The message the agent is called with, for any request served:
    it is not empty, it neither begins nor ends with a whitespace
    character, and stripping it again changes nothing. *)
Theorem agent_message_is_stripped cu r w call :
  agent_calls (snd (serve cu r w)) = agent_calls w ++ [call] ->
  str_truthy (call_message call) = true
  /\ strip (call_message call) = call_message call
  /\ (forall c, first_char (call_message call) = Some c -> isspace c = false)
  /\ (forall c, last_char (call_message call) = Some c -> isspace c = false).
Proof.
  intros Hcall.
  destruct (serve_agent_calls cu r w) as (calls & Hcalls & _ & Hin & _).
  rewrite Hcalls in Hcall. apply app_inv_head in Hcall. subst calls.
  destruct (Hin call (or_introl eq_refl))
    as (_ & (data & message & _ & _ & Hb & ->) & _).
  split; [now rewrite strip_truthy, Hb|].
  split; [apply strip_idempotent|]. split.
  - intros c Hc. apply (lstrip_first message), rstrip_first, Hc.
  - intros c. apply rstrip_last.
Qed.

(** ** Who gets through *)

(** No handler answers with status 401 itself. *)
Lemma handlers_never_401 cu r w body :
  fst (match r with
       | NewSession => new_session cu
       | Chat data => chat_api cu data
       | ChatStream data => chat_stream_api cu data
       | ClearSession data => clear_session data
       end w) <> Return (Json 401 body).
Proof.
  destruct r as [|data|data|data].
  - unfold new_session, failure_tolerant, try_except, bind.
    rewrite create_session_eq. discriminate.
  - unfold chat_api, failure_tolerant, try_except.
    destruct (negb _); [discriminate|]. unfold bind.
    destruct (sync_get_response_spec cu
                (strip (default EmptyString (req_message data)))
                (req_session_id data) (Some (resolve_username cu)) w)
      as (sid & w1 & call & _ & _ & _ & ->).
    discriminate.
  - unfold chat_stream_api, failure_tolerant, try_except.
    destruct (negb _); [discriminate|].
    destruct (generate_stream _ _ _ w). discriminate.
  - unfold clear_session, failure_tolerant, try_except.
    destruct (req_session_id data) as [sid|]; [|discriminate].
    destruct (str_truthy sid && has_session w sid); discriminate.
Qed.

(** X16. A request from a caller who is not authenticated is answered
    with status 401 and [{'error': 'Authentication required'}] on every
    route, and the world stays as it is: no session is created, used or
    cleared and the agent is not called. Conversely a 401 answer is
    given to such callers only. *)
Theorem status_401_is_for_the_unauthenticated cu r w :
  (match cu with
   | Some u => is_authenticated u = false
   | None => True
   end ->
   serve cu r w
     = (Return (Json 401 [("error", JStr "Authentication required")]), w))
  /\ ((exists body, fst (serve cu r w) = Return (Json 401 body)) ->
      match cu with
      | Some u => is_authenticated u = false
      | None => True
      end).
Proof.
  split.
  - unfold serve, admin_only. destruct cu as [u|]; [|reflexivity].
    now intros ->.
  - intros (body & H). destruct cu as [[[] name]|]; try easy.
    rewrite serve_authenticated in H.
    now destruct (handlers_never_401 (Some (User true name)) r w body).
Qed.

(** ** How many ids there are *)

Lemma uuid4_as_mask r :
  uuid4 r = N.lor (uuid4_random_bits r)
              (N.lor (N.shiftl 0x8000 48) (N.shiftl 4 76)).
Proof.
  unfold uuid4, uuid4_random_bits, uuid4_fixed_bits.
  generalize (r mod 2 ^ 128)%N. intros z.
  apply N.bits_inj. intros n.
  rewrite !N.lor_spec, !N.ldiff_spec, !N.lor_spec, !N.ldiff_spec.
  assert (H : N.testbit (N.land (N.shiftl 0x8000 48) (N.shiftl 0xf000 64)) n = false)
    by apply N.bits_0.
  rewrite N.land_spec in H.
  destruct (N.testbit z n), (N.testbit (N.shiftl 0xc000 48) n),
    (N.testbit (N.shiftl 0x8000 48) n), (N.testbit (N.shiftl 0xf000 64) n),
    (N.testbit (N.shiftl 4 76) n); cbn in H |- *; congruence.
Qed.

Lemma uuid4_random_bits_of_uuid4 r :
  N.ldiff (uuid4 r) uuid4_fixed_bits = uuid4_random_bits r.
Proof.
  rewrite uuid4_as_mask. unfold uuid4_random_bits.
  generalize (r mod 2 ^ 128)%N. intros z.
  apply N.bits_inj. intros n.
  rewrite !N.ldiff_spec, !N.lor_spec, !N.ldiff_spec.
  assert (H : N.testbit
                (N.ldiff (N.lor (N.shiftl 0x8000 48) (N.shiftl 4 76))
                   uuid4_fixed_bits) n = false) by apply N.bits_0.
  rewrite N.ldiff_spec, N.lor_spec in H.
  destruct (N.testbit z n), (N.testbit uuid4_fixed_bits n),
    (N.testbit (N.shiftl 0x8000 48) n), (N.testbit (N.shiftl 4 76) n);
    cbn in H |- *; congruence.
Qed.

Lemma uuid_str_uuid4_random_bits r1 r2 :
  uuid_str (uuid4 r1) = uuid_str (uuid4 r2)
  <-> uuid4_random_bits r1 = uuid4_random_bits r2.
Proof.
  split.
  - intros H. apply uuid_str_inj in H; [|apply uuid4_lt..].
    now rewrite <- !uuid4_random_bits_of_uuid4, H.
  - intros H. now rewrite !uuid4_as_mask, H.
Qed.

(** X17. In two states of the process [create_session] hands out the
    same session id exactly when the two draws of random bytes behind it
    agree on the 122 bits outside the variant and version fields; any
    difference there gives different ids. *)
Theorem same_session_id_same_random_bits w1 w2 :
  next_session_id w1 = next_session_id w2
  <-> uuid4_random_bits (urandom (draws w1))
      = uuid4_random_bits (urandom (draws w2)).
Proof. apply uuid_str_uuid4_random_bits. Qed.

(** ** More on sessions and streams *)

(** X18. A cleared session cannot be resumed: after [clear_session] has
    removed a session, a chat request that still carries its id is not
    turned down but served under the next new id, over either path, and
    that new session is what the registry gains. *)
Theorem cleared_session_id_gets_new_session
    cu data sid meta w message given :
  reachable w -> req_session_id data = Some sid ->
  sessions w !! sid = Some meta ->
  exists w1,
    clear_session data w
      = (Return (Json 200 [("message", JStr "Session cleared successfully")]), w1)
    /\ (exists response w2,
          sync_get_response cu message (Some sid) given w1
            = (Return (response, next_session_id w1), w2)
          /\ sessions w2
             = <[next_session_id w1 :=
                   Session (clock (ticks w1)) (resolve_username cu)]>
                 (delete sid (sessions w)))
    /\ (exists frames w2,
          generate_stream cu message (Some sid) w1
            = (session_frame (next_session_id w1) :: frames, w2)
          /\ sessions w2
             = <[next_session_id w1 :=
                   Session (clock (ticks w1)) (resolve_username cu)]>
                 (delete sid (sessions w))).
Proof.
  intros Hr Hd Hm.
  pose proof (reachable_key_truthy w sid meta Hr Hm) as Ht.
  set (w1 := World (delete sid (sessions w)) (draws w) (ticks w) (agent_calls w)).
  assert (Hclear : clear_session data w
            = (Return (Json 200 [("message", JStr "Session cleared successfully")]), w1)).
  { unfold clear_session, failure_tolerant, try_except, has_session.
    now rewrite Hd, Ht, Hm. }
  assert (Hnew : session_or_new cu (Some sid) w1 = create_session cu w1).
  { unfold session_or_new, has_session. subst w1. cbn [sessions].
    rewrite lookup_delete_eq. now rewrite orb_true_r. }
  rewrite create_session_eq in Hnew.
  exists w1. split; [exact Hclear|]. split.
  - destruct (sync_get_response_spec cu message (Some sid) given w1)
      as (sid' & w1' & call & Hs & _ & _ & Heq).
    rewrite Hnew in Hs. injection Hs as <- <-.
    rewrite Heq. eexists _, _. split; reflexivity.
  - destruct (generate_stream_spec cu message (Some sid) w1)
      as (sid' & w1' & call & Hs & _ & _ & Heq).
    rewrite Hnew in Hs. injection Hs as <- <-.
    rewrite Heq. eexists _, _. split; reflexivity.
Qed.

Lemma relay_chunks_frames chunks tail :
  Forall (fun f => exists t, f = chunk_frame (PStr t) /\ blank t = false)
    (yielded (relay_chunks chunks tail)).
Proof.
  induction chunks as [|chunk rest IH]; cbn [relay_chunks]; [constructor|].
  destruct (truthy chunk); [|exact IH].
  destruct chunk as [| | |s]; cbn [py_strip]; try constructor.
  destruct (str_truthy (strip s)) eqn:Hs; [|exact IH].
  cbn [yielded]. constructor; [|exact IH].
  exists s. split; [reflexivity|].
  rewrite strip_truthy in Hs. now apply negb_true_iff in Hs.
Qed.

(** X19. Every stream of the streaming endpoint, whatever the agent
    yields and however it ends, has the same shape: first the [session]
    frame, with a session id that is in the registry; then [chunk]
    frames only, each carrying a piece of text that is not blank; last
    one frame that is either [done] or [error]. *)
Theorem chat_stream_shape cu data message w :
  req_message data = Some message -> blank message = false ->
  exists sid chunks last w',
    chat_stream_api cu data w
      = (Return (Stream (session_frame sid :: chunks ++ [last])), w')
    /\ is_Some (sessions w' !! sid)
    /\ Forall (fun f => exists t, f = chunk_frame (PStr t) /\ blank t = false)
         chunks
    /\ (last = done_frame \/ last = error_frame).
Proof.
  intros Hm Hb. rewrite (chat_stream_api_stream cu data message w Hm Hb).
  destruct (generate_stream_call cu (strip message) (req_session_id data) w)
    as (sid & w1 & meta & _ & Hmeta & _ & ->).
  cbn [fst snd]. eexists sid, _, _, _. split; [reflexivity|].
  cbn [sessions]. split; [eauto|]. split; [apply relay_chunks_frames|].
  destruct (ending _); auto.
Qed.

(** ** [clear_session] on any request body *)

Lemma jfield_request_fields data :
  jfield "session_id" (request_fields data)
    = option_map JString (req_session_id data).
Proof.
  unfold request_fields.
  destruct (req_message data), (req_session_id data); reflexivity.
Qed.

(** On the body of a well-formed request, [clear_session_json] is
    [clear_session]. *)
Lemma clear_session_json_request data w :
  clear_session_json (Return (JObject (request_fields data))) w
    = clear_session data w.
Proof.
  unfold clear_session_json, clear_session, failure_tolerant, try_except.
  rewrite jfield_request_fields.
  destruct (req_session_id data) as [sid|]; cbn [option_map]; [|reflexivity].
  cbn [json_truthy json_in_sessions].
  destruct (str_truthy sid); [|reflexivity].
  destruct (has_session w sid); reflexivity.
Qed.

(** What [clear_session_json] does on a JSON object, by the value of its
    [session_id]. *)
Lemma clear_session_json_object fields w :
  clear_session_json (Return (JObject fields)) w =
    match jfield "session_id" fields with
    | Some (JString s) =>
        if str_truthy s && has_session w s then
          (Return (Json 200 [("message", JStr "Session cleared successfully")]),
           World (delete s (sessions w)) (draws w) (ticks w) (agent_calls w))
        else (Return (Json 404 [("error", JStr "Session not found")]), w)
    | Some session_id =>
        if json_truthy session_id && negb (json_hashable session_id) then
          (Return (Json 500 [("error", JStr "Something went wrong")]), w)
        else (Return (Json 404 [("error", JStr "Session not found")]), w)
    | None => (Return (Json 404 [("error", JStr "Session not found")]), w)
    end.
Proof.
  unfold clear_session_json, failure_tolerant, try_except.
  destruct (jfield "session_id" fields) as [[|b|z|f|s|items|items]|];
    try reflexivity.
  - now destruct b.
  - cbn [json_truthy json_hashable negb andb]. now destruct (negb (z =? 0)%Z).
  - now destruct f.
  - cbn [json_truthy json_in_sessions].
    destruct (str_truthy s); [|reflexivity]. now destruct (has_session w s).
  - now destruct items.
  - now destruct items.
Qed.

(** C10, as the code has it. [clear_session] on a body that is a JSON
    object without [session_id], or with a null or otherwise empty one
    (an empty string, zero, false, an empty list or object): the answer
    is the 404 answer, the same as for an id that is not in the
    registry, and the world is left as it was. When no JSON object can
    be read from the request (no JSON at all, or a value that is not an
    object) the answer is the 500 answer of [failure_tolerant], and the
    world is left as it was too. *)
Theorem clear_session_json_without_id fields w :
  match jfield "session_id" fields with
  | Some session_id => json_truthy session_id = false
  | None => True
  end ->
  clear_session_json (Return (JObject fields)) w
    = (Return (Json 404 [("error", JStr "Session not found")]), w)
  /\ (forall fields' sid,
        jfield "session_id" fields' = Some (JString sid) ->
        sessions w !! sid = None ->
        clear_session_json (Return (JObject fields')) w
          = clear_session_json (Return (JObject fields)) w)
  /\ (forall get_json,
        (forall fields', get_json <> Return (JObject fields')) ->
        clear_session_json get_json w
          = (Return (Json 500 [("error", JStr "Something went wrong")]), w)).
Proof.
  intros Hid.
  assert (H404 : clear_session_json (Return (JObject fields)) w
            = (Return (Json 404 [("error", JStr "Session not found")]), w)).
  { rewrite clear_session_json_object.
    destruct (jfield "session_id" fields) as [session_id|]; [|reflexivity].
    destruct session_id as [|b|z|f|s|items|items]; cbn beta iota;
      try (rewrite Hid; reflexivity).
    cbn [json_truthy] in Hid. now rewrite Hid. }
  split; [exact H404|]. split.
  - intros fields' sid Hf Hnone. rewrite H404, clear_session_json_object, Hf.
    unfold has_session. rewrite Hnone. now rewrite andb_false_r.
  - intros get_json Hno. unfold clear_session_json, failure_tolerant, try_except.
    destruct get_json as [[| | | | | |fields']|e]; try reflexivity.
    now destruct (Hno fields').
Qed.

(** X10. [clear_session], whatever the request carries and whatever the
    state: it never raises and gives one of three answers, the success
    answer, the 404 answer or the 500 answer of [failure_tolerant]; the
    500 answer exactly when no JSON object can be read from the request
    or [session_id] is a non-empty list or object. In every case it
    leaves each session other than the one whose id is the [session_id]
    string of the body as it is, draws no id, reads no clock and does
    not call the agent. *)
Theorem clear_session_json_touches_one_entry get_json w :
  (fst (clear_session_json get_json w)
     = Return (Json 200 [("message", JStr "Session cleared successfully")])
   \/ fst (clear_session_json get_json w)
      = Return (Json 404 [("error", JStr "Session not found")])
   \/ fst (clear_session_json get_json w)
      = Return (Json 500 [("error", JStr "Something went wrong")]))
  /\ (fst (clear_session_json get_json w)
        = Return (Json 500 [("error", JStr "Something went wrong")])
      <-> match get_json with
          | Return (JObject fields) =>
              match jfield "session_id" fields with
              | Some session_id =>
                  json_truthy session_id = true
                  /\ json_hashable session_id = false
              | None => False
              end
          | _ => True
          end)
  /\ (forall k,
        (forall fields,
           get_json = Return (JObject fields) ->
           jfield "session_id" fields <> Some (JString k)) ->
        sessions (snd (clear_session_json get_json w)) !! k = sessions w !! k)
  /\ draws (snd (clear_session_json get_json w)) = draws w
  /\ ticks (snd (clear_session_json get_json w)) = ticks w
  /\ agent_calls (snd (clear_session_json get_json w)) = agent_calls w.
Proof.
  assert (Hother : forall data,
            (forall fields, data <> JObject fields) ->
            clear_session_json (Return data) w
              = (Return (Json 500 [("error", JStr "Something went wrong")]), w)).
  { intros data Hno. unfold clear_session_json, failure_tolerant, try_except.
    destruct data as [| | | | | |fields]; try reflexivity.
    now destruct (Hno fields). }
  destruct get_json as [data|e].
  2:{ cbn. repeat split; auto. }
  destruct data as [|b|z|f|s|items|fields];
    try (rewrite Hother by discriminate; cbn; repeat split; auto).
  rewrite clear_session_json_object.
  destruct (jfield "session_id" fields) as [session_id|] eqn:Hf.
  2:{ cbn. repeat split; auto; try discriminate; tauto. }
  destruct session_id as [|b|z|f|s|items|items];
    try (destruct (json_truthy _ && negb (json_hashable _)) eqn:Hc;
         cbn [json_truthy json_hashable negb andb] in Hc |- *;
         rewrite ?andb_false_r, ?andb_true_r in Hc;
         cbn [fst snd];
         repeat split; auto; try discriminate;
         try (intros [Ht Hh]; congruence); try (intros _; congruence)).
  destruct (str_truthy s && has_session w s) eqn:Hc; cbn [fst snd].
  - split; [auto|]. split; [split; [discriminate | intros [_ [=]]]|].
    cbn [sessions draws ticks agent_calls]. split; [|auto].
    intros k Hk. apply lookup_delete_ne. intros ->.
    now apply (Hk fields eq_refl).
  - split; [auto|]. split; [split; [discriminate | intros [_ [=]]]|]. auto.
Qed.

End Relay.

(** ** The claims at explicit inputs *)

(** C1 does not hold as stated: the agent raises at once, and the
    one-shot path answers with [error_message], not with
    [fallback_response]. *)
Lemma agent_failure_is_not_fallback :
  fst (sync_get_response stuck_urandom counting_clock None failing_agent
         alice "How many dashboards are there?" None None init_world)
    = Return (error_message, "00000000-0000-4000-8000-000000000000")
  /\ error_message <> fallback_response.
Proof. split; [vm_compute; reflexivity | discriminate]. Qed.

Lemma sync_get_response_agent_raises_witness :
  exists sid,
    fst (sync_get_response stuck_urandom counting_clock None failing_agent
           alice "hi" None None init_world)
      = Return (error_message, sid).
Proof.
  destruct (sync_get_response_agent_raises stuck_urandom counting_clock None
              failing_agent alice "hi" None None init_world)
    as (call & w' & _ & _ & _ & _ & H).
  exists (call_session_id call).
  rewrite (H [] (AgentError "connection refused") eq_refl). reflexivity.
Defined.

(** C2 does not hold as stated: the agent raises at once, and the stream
    is [session], a [chunk] carrying [error_message], [done]; it is not
    [session] followed by [error]. *)
Lemma agent_failure_streams_chunk_and_done :
  fst (chat_stream_api stuck_urandom counting_clock None failing_agent alice
         (Request (Some "How many dashboards are there?") None) init_world)
    = Return (Stream [session_frame "00000000-0000-4000-8000-000000000000";
                      chunk_frame (PStr error_message);
                      done_frame])
  /\ [session_frame "00000000-0000-4000-8000-000000000000";
      chunk_frame (PStr error_message); done_frame]
     <> [session_frame "00000000-0000-4000-8000-000000000000"; error_frame].
Proof. split; [vm_compute; reflexivity | discriminate]. Qed.

Lemma chat_stream_agent_raises_at_once_witness :
  exists sid,
    fst (chat_stream_api stuck_urandom counting_clock None failing_agent alice
           (Request (Some "hi") None) init_world)
      = Return (Stream [session_frame sid; chunk_frame (PStr error_message);
                        done_frame]).
Proof.
  destruct (chat_stream_agent_raises_at_once stuck_urandom counting_clock None
              failing_agent alice (Request (Some "hi") None) "hi" init_world
              eq_refl eq_refl)
    as (call & w' & _ & _ & H).
  exists (call_session_id call).
  rewrite (H (AgentError "connection refused") eq_refl). reflexivity.
Defined.

(** C3 does not hold as stated: the agent yields three non-empty
    fragments and completes, and the stream has two [chunk] frames; the
    fragment that is a single space has none. *)
Lemma whitespace_fragment_gets_no_chunk :
  yielded (spaced_agent 0 (AgentCall "00000000-0000-4000-8000-000000000000"
                             "hi" None "alice"))
    = [PStr "Hello"; PStr " "; PStr "world"]
  /\ forallb truthy [PStr "Hello"; PStr " "; PStr "world"] = true
  /\ fst (chat_stream_api stuck_urandom counting_clock None spaced_agent alice
            (Request (Some "hi") None) init_world)
       = Return (Stream [session_frame "00000000-0000-4000-8000-000000000000";
                         chunk_frame (PStr "Hello");
                         chunk_frame (PStr "world");
                         done_frame]).
Proof. repeat split; vm_compute; reflexivity. Qed.

Lemma chat_stream_agent_completes_witness :
  exists sid,
    fst (chat_stream_api stuck_urandom counting_clock None spaced_agent alice
           (Request (Some " hi ") None) init_world)
      = Return (Stream [session_frame sid; chunk_frame (PStr "Hello");
                        chunk_frame (PStr "world"); done_frame]).
Proof.
  destruct (chat_stream_agent_completes stuck_urandom counting_clock None
              spaced_agent alice (Request (Some " hi ") None) " hi " init_world
              eq_refl eq_refl)
    as (call & w' & _ & _ & H).
  exists (call_session_id call).
  rewrite (H ["Hello"; " "; "world"] eq_refl). reflexivity.
Defined.

Lemma sync_get_response_concatenates_witness :
  exists sid,
    fst (sync_get_response stuck_urandom counting_clock None spaced_agent
           alice "hi" None None init_world)
      = Return ("Hello world", sid).
Proof.
  destruct (sync_get_response_concatenates stuck_urandom counting_clock None
              spaced_agent alice "hi" None None init_world)
    as (call & w' & _ & _ & H).
  exists (call_session_id call).
  rewrite (H ["Hello"; " "; "world"] eq_refl). reflexivity.
Defined.

Lemma clear_session_registry_witness :
  fst (clear_session
         (Request None (Some "00000000-0000-4000-8000-000000000000"))
         (snd (serve stuck_urandom counting_clock None spaced_agent alice
                 NewSession init_world)))
    = Return (Json 200 [("message", JStr "Session cleared successfully")])
  /\ fst (clear_session
            (Request None (Some "00000000-0000-4000-8000-00000000beef"))
            (snd (serve stuck_urandom counting_clock None spaced_agent alice
                    NewSession init_world)))
       = Return (Json 404 [("error", JStr "Session not found")]).
Proof.
  split.
  - destruct (clear_session_registry stuck_urandom counting_clock None
                spaced_agent
                (Request None (Some "00000000-0000-4000-8000-000000000000"))
                "00000000-0000-4000-8000-000000000000"
                (snd (serve stuck_urandom counting_clock None spaced_agent alice
                        NewSession init_world))
                (reachable_serve _ _ _ _ _ _ _ (reachable_init _ _ _ _)) eq_refl)
      as [_ Hknown].
    destruct (Hknown (Session 0 "alice")) as (w' & Heq & _).
    + vm_compute. reflexivity.
    + rewrite Heq. reflexivity.
  - destruct (clear_session_registry stuck_urandom counting_clock None
                spaced_agent
                (Request None (Some "00000000-0000-4000-8000-00000000beef"))
                "00000000-0000-4000-8000-00000000beef"
                (snd (serve stuck_urandom counting_clock None spaced_agent alice
                        NewSession init_world))
                (reachable_serve _ _ _ _ _ _ _ (reachable_init _ _ _ _)) eq_refl)
      as [Hunknown _].
    rewrite Hunknown; [reflexivity|]. vm_compute. reflexivity.
Defined.

Lemma blank_message_rejected_witness :
  chat_api stuck_urandom counting_clock None spaced_agent alice
    (Request (Some "   ") None) init_world
    = (Return (Json 400 [("error", JStr "Message is required")]), init_world)
  /\ chat_stream_api stuck_urandom counting_clock None spaced_agent alice
       (Request (Some "   ") None) init_world
       = (Return (Json 400 [("error", JStr "Message is required")]), init_world).
Proof.
  apply (blank_message_rejected stuck_urandom counting_clock None spaced_agent
           alice (Request (Some "   ") None) init_world).
  reflexivity.
Defined.

(** C7 does not hold as stated: with a random source that repeats
    itself, the second request without a session id is served under the
    id the first request was given. *)
Lemma repeated_draw_repeats_session_id :
  issued stuck_urandom
    (snd (sync_get_response stuck_urandom counting_clock None spaced_agent
            alice "first" None None init_world))
    = ["00000000-0000-4000-8000-000000000000"]
  /\ fst (sync_get_response stuck_urandom counting_clock None spaced_agent
            alice "second" None None
            (snd (sync_get_response stuck_urandom counting_clock None
                    spaced_agent alice "first" None None init_world)))
       = Return ("Hello world", "00000000-0000-4000-8000-000000000000").
Proof. split; vm_compute; reflexivity. Qed.

Lemma unknown_session_gets_new_id_witness :
  is_uuid4 (next_session_id counting_urandom
              (snd (sync_get_response counting_urandom counting_clock None
                      spaced_agent alice "first" None None init_world))) = true
  /\ ~ In (next_session_id counting_urandom
             (snd (sync_get_response counting_urandom counting_clock None
                     spaced_agent alice "first" None None init_world)))
          (issued counting_urandom
             (snd (sync_get_response counting_urandom counting_clock None
                     spaced_agent alice "first" None None init_world))).
Proof.
  destruct (unknown_session_gets_new_id counting_urandom counting_clock None
              spaced_agent alice "second"
              (Some "00000000-0000-4000-8000-00000000beef") None
              (snd (sync_get_response counting_urandom counting_clock None
                      spaced_agent alice "first" None None init_world)))
    as (Hvalid & _ & _ & Hdistinct).
  - vm_compute. reflexivity.
  - split; [exact Hvalid|]. apply Hdistinct.
    intros k Hk. change (k < 1) in Hk.
    destruct k as [|k]; [|lia]. vm_compute. discriminate.
Defined.

Lemma chat_stream_error_is_last_witness :
  exists frames,
    fst (chat_stream_api stuck_urandom counting_clock None untyped_agent alice
           (Request (Some "count the rows") None) init_world)
      = Return (Stream frames)
    /\ frames !! 2 = Some error_frame
    /\ length frames = 3.
Proof.
  destruct (chat_stream_error_is_last stuck_urandom counting_clock None
              untyped_agent alice (Request (Some "count the rows") None)
              "count the rows" init_world eq_refl eq_refl)
    as (frames & w' & Heq & Hlast).
  exists frames. rewrite Heq. split; [reflexivity|].
  assert (Hf : frames !! 2 = Some error_frame).
  { vm_compute in Heq. injection Heq as <- _. reflexivity. }
  split; [exact Hf|]. symmetry. exact (Hlast 2 error_frame Hf eq_refl).
Defined.

Lemma sync_get_response_keeps_known_session_witness :
  exists response w',
    sync_get_response stuck_urandom counting_clock None failing_agent alice
      "hi" (Some "00000000-0000-4000-8000-000000000000") None
      (snd (serve stuck_urandom counting_clock None failing_agent alice
              NewSession init_world))
      = (Return (response, "00000000-0000-4000-8000-000000000000"), w')
    /\ sessions w'
       = sessions (snd (serve stuck_urandom counting_clock None failing_agent
                          alice NewSession init_world)).
Proof.
  apply (sync_get_response_keeps_known_session stuck_urandom counting_clock
           None failing_agent alice "hi"
           "00000000-0000-4000-8000-000000000000" None _ (Session 0 "alice")).
  - apply reachable_serve, reachable_init.
  - vm_compute. reflexivity.
Defined.

(** ** Further properties at explicit inputs *)

Lemma registry_sessions_were_issued_witness :
  In "00000000-0000-4000-8000-000000000000"
    (issued stuck_urandom
       (snd (serve stuck_urandom counting_clock None spaced_agent alice
               NewSession init_world)))
  /\ is_uuid4 "00000000-0000-4000-8000-000000000000" = true
  /\ exists t,
       t < ticks (snd (serve stuck_urandom counting_clock None spaced_agent
                         alice NewSession init_world))
       /\ created_at (Session 0 "alice") = counting_clock t.
Proof.
  apply (registry_sessions_were_issued stuck_urandom counting_clock None
           spaced_agent _ "00000000-0000-4000-8000-000000000000"
           (Session 0 "alice")).
  - apply reachable_serve, reachable_init.
  - vm_compute. reflexivity.
Defined.

Lemma registry_grows_by_at_most_one_witness :
  size (sessions (snd (serve stuck_urandom counting_clock None spaced_agent
                         alice NewSession init_world)))
  <= draws (snd (serve stuck_urandom counting_clock None spaced_agent alice
                   NewSession init_world)).
Proof.
  apply (registry_grows_by_at_most_one stuck_urandom counting_clock None
           spaced_agent alice NewSession
           (snd (serve stuck_urandom counting_clock None spaced_agent alice
                   NewSession init_world))).
  apply reachable_serve, reachable_init.
Defined.

Lemma agent_called_only_for_chat_witness :
  exists call,
    agent_calls (snd (serve stuck_urandom counting_clock None spaced_agent alice
                        (Chat (Request (Some " hi ") None)) init_world))
      = [call]
    /\ call_message call = "hi"
    /\ call_md_uri call = None.
Proof.
  destruct (agent_called_only_for_chat stuck_urandom counting_clock None
              spaced_agent alice (Chat (Request (Some " hi ") None)) init_world)
    as (calls & Hcalls & _ & Hin & Hone).
  specialize (Hone (User true (Some "alice")) (Request (Some " hi ") None) " hi "
                eq_refl eq_refl (or_introl eq_refl) eq_refl eq_refl).
  destruct calls as [|call [|? ?]]; try discriminate Hone.
  exists call. split; [exact Hcalls|].
  destruct (Hin call (or_introl eq_refl))
    as (_ & (data & message & Hr & Hm & _ & Hcm) & Huri & _).
  split; [|exact Huri].
  destruct Hr as [[= <-]|[=]]. injection Hm as <-. exact Hcm.
Defined.

Lemma get_response_stream_agent_arguments_witness :
  exists sid,
    agent_calls (snd (get_response_stream stuck_urandom counting_clock None
                        spaced_agent alice "hi" None None init_world))
      = [AgentCall sid "hi" None "alice"].
Proof.
  destruct (get_response_stream_agent_arguments stuck_urandom counting_clock
              None spaced_agent alice "hi" None None init_world)
    as (sid & meta & _ & Hcalls & Hnew & _).
  destruct (Hnew eq_refl) as [_ Hname].
  exists sid. rewrite Hcalls. cbn [username_for_agent]. rewrite Hname.
  reflexivity.
Defined.

Lemma chat_api_answers_witness :
  exists sid t w',
    chat_api stuck_urandom counting_clock None spaced_agent alice
      (Request (Some " hi ") None) init_world
      = (Return (Json 200 [("response", JStr "Hello world");
                           ("session_id", JStr sid);
                           ("timestamp", JIso t)]), w').
Proof.
  destruct (chat_api_answers stuck_urandom counting_clock None spaced_agent
              alice (Request (Some " hi ") None) " hi " init_world
              eq_refl eq_refl)
    as (response & sid & w1 & Hsync & _ & Hchat).
  vm_compute in Hsync. injection Hsync as <- _ _.
  eexists _, _, _. exact Hchat.
Defined.

Lemma handed_out_session_id_is_kept_witness :
  exists response' w2,
    sync_get_response stuck_urandom counting_clock None spaced_agent alice
      "and then?" (Some "00000000-0000-4000-8000-000000000000") None
      (snd (sync_get_response stuck_urandom counting_clock None spaced_agent
              alice "hi" None None init_world))
      = (Return (response', "00000000-0000-4000-8000-000000000000"), w2)
    /\ sessions w2
       = sessions (snd (sync_get_response stuck_urandom counting_clock None
                          spaced_agent alice "hi" None None init_world)).
Proof.
  apply (handed_out_session_id_is_kept stuck_urandom counting_clock None
           spaced_agent alice "hi" None None init_world
           "00000000-0000-4000-8000-000000000000" _ alice "and then?" None).
  left. exists "Hello world". vm_compute. reflexivity.
Defined.

Lemma new_session_then_clear_session_witness :
  sessions
    (snd (clear_session
            (Request None (Some "00000000-0000-4000-8000-000000000000"))
            (snd (new_session stuck_urandom counting_clock alice init_world))))
    = sessions init_world.
Proof.
  destruct (new_session_then_clear_session stuck_urandom counting_clock alice
              (Request None (Some "00000000-0000-4000-8000-000000000000"))
              init_world)
    as (w1 & w2 & Hnew & Hclear & _ & Hsame).
  - vm_compute. reflexivity.
  - rewrite Hnew. cbn [snd]. rewrite Hclear. cbn [snd].
    apply Hsame. vm_compute. reflexivity.
Defined.

Lemma sync_get_response_non_text_item_witness :
  exists sid,
    fst (sync_get_response stuck_urandom counting_clock None untyped_agent
           alice "count the rows" None None init_world)
      = Return (fallback_response, sid).
Proof.
  destruct (sync_get_response_non_text_item stuck_urandom counting_clock None
              untyped_agent alice "count the rows" None None init_world)
    as (call & w' & _ & _ & H).
  exists (call_session_id call).
  rewrite (H [PStr "rows: "; PInt 42] None (PInt 42) eq_refl
             (or_intror (or_introl eq_refl)) eq_refl);
    [reflexivity | discriminate].
Defined.


Lemma chat_stream_agent_raises_midway_witness :
  exists sid,
    fst (chat_stream_api stuck_urandom counting_clock None flaky_agent alice
           (Request (Some "hi") None) init_world)
      = Return (Stream [session_frame sid; chunk_frame (PStr "Let me ");
                        chunk_frame (PStr "check");
                        chunk_frame (PStr error_message); done_frame]).
Proof.
  destruct (chat_stream_agent_raises_midway stuck_urandom counting_clock None
              flaky_agent alice (Request (Some "hi") None) "hi" init_world
              eq_refl eq_refl)
    as (call & w' & _ & _ & H).
  exists (call_session_id call).
  rewrite (H ["Let me "; "check"] (AgentError "timed out") eq_refl).
  reflexivity.
Defined.

Lemma stream_text_and_one_shot_response_witness :
  exists sid w1 frames w2,
    sync_get_response stuck_urandom counting_clock None spaced_agent alice
      "hi" None None init_world = (Return ("Hello world", sid), w1)
    /\ generate_stream stuck_urandom counting_clock None spaced_agent alice
         "hi" None init_world = (frames, w2)
    /\ chunk_texts frames = ["Hello"; "world"].
Proof.
  destruct (stream_text_and_one_shot_response stuck_urandom counting_clock None
              spaced_agent alice "hi" None None alice "hi" None init_world
              ["Hello"; " "; "world"] (fun _ => eq_refl))
    as (sid & w1 & frames & w2 & Hsync & Hgen & Htexts & _).
  exists sid, w1, frames, w2. split; [exact Hsync|]. split; [exact Hgen|].
  rewrite Htexts. reflexivity.
Defined.

Lemma agent_message_is_stripped_witness :
  str_truthy "hi" = true
  /\ strip "hi" = "hi"
  /\ (forall c, first_char "hi" = Some c -> isspace c = false)
  /\ (forall c, last_char "hi" = Some c -> isspace c = false).
Proof.
  apply (agent_message_is_stripped stuck_urandom counting_clock None
           spaced_agent alice (ChatStream (Request (Some "  hi  ") None))
           init_world
           (AgentCall "00000000-0000-4000-8000-000000000000" "hi" None "alice")).
  vm_compute. reflexivity.
Defined.

Lemma status_401_is_for_the_unauthenticated_witness :
  serve stuck_urandom counting_clock None spaced_agent
    (Some (User false (Some "mallory"))) (Chat (Request (Some "hi") None))
    init_world
    = (Return (Json 401 [("error", JStr "Authentication required")]), init_world).
Proof.
  apply (status_401_is_for_the_unauthenticated stuck_urandom counting_clock
           None spaced_agent (Some (User false (Some "mallory")))
           (Chat (Request (Some "hi") None)) init_world).
  reflexivity.
Defined.

Lemma cleared_session_id_gets_new_session_witness :
  exists response w2,
    sync_get_response counting_urandom counting_clock None spaced_agent alice
      "hi" (Some "00000000-0000-4000-8000-000000000000") None
      (snd (clear_session
              (Request None (Some "00000000-0000-4000-8000-000000000000"))
              (snd (serve counting_urandom counting_clock None spaced_agent
                      alice NewSession init_world))))
      = (Return (response, "00000000-0000-4000-8000-000000000001"), w2).
Proof.
  destruct (cleared_session_id_gets_new_session counting_urandom counting_clock
              None spaced_agent alice
              (Request None (Some "00000000-0000-4000-8000-000000000000"))
              "00000000-0000-4000-8000-000000000000" (Session 0 "alice")
              (snd (serve counting_urandom counting_clock None spaced_agent
                      alice NewSession init_world))
              "hi" None)
    as (w1 & Hclear & (response & w2 & Hsync & _) & _).
  - apply reachable_serve, reachable_init.
  - reflexivity.
  - vm_compute. reflexivity.
  - rewrite Hclear. cbn [snd]. exists response, w2. rewrite Hsync.
    apply (f_equal snd) in Hclear. cbn [snd] in Hclear. rewrite <- Hclear.
    vm_compute. reflexivity.
Defined.

Lemma chat_stream_shape_witness :
  exists sid chunks last w',
    chat_stream_api stuck_urandom counting_clock None untyped_agent alice
      (Request (Some "count the rows") None) init_world
      = (Return (Stream (session_frame sid :: chunks ++ [last])), w')
    /\ is_Some (sessions w' !! sid)
    /\ Forall (fun f => exists t, f = chunk_frame (PStr t) /\ blank t = false)
         chunks
    /\ (last = done_frame \/ last = error_frame).
Proof.
  exact (chat_stream_shape stuck_urandom counting_clock None untyped_agent alice
           (Request (Some "count the rows") None) "count the rows" init_world
           eq_refl eq_refl).
Defined.

(** C10 does not hold as stated: a request without any JSON to read,
    and a request whose body is the empty list or [null], all lack a
    [session_id], and each gets the 500 answer, not the 404 answer. *)
Lemma clear_session_body_not_an_object :
  fst (clear_session_json (Raise (HTTPException 400))
         (snd (serve stuck_urandom counting_clock None spaced_agent alice
                 NewSession init_world)))
    = Return (Json 500 [("error", JStr "Something went wrong")])
  /\ fst (clear_session_json (Return (JArray []))
            (snd (serve stuck_urandom counting_clock None spaced_agent alice
                    NewSession init_world)))
       = Return (Json 500 [("error", JStr "Something went wrong")])
  /\ fst (clear_session_json (Return JNull)
            (snd (serve stuck_urandom counting_clock None spaced_agent alice
                    NewSession init_world)))
       = Return (Json 500 [("error", JStr "Something went wrong")]).
Proof. repeat split. Qed.

Lemma clear_session_json_without_id_witness :
  clear_session_json (Return (JObject [("session_id", JNull)]))
    (snd (serve stuck_urandom counting_clock None spaced_agent alice
            NewSession init_world))
    = (Return (Json 404 [("error", JStr "Session not found")]),
       snd (serve stuck_urandom counting_clock None spaced_agent alice
              NewSession init_world))
  /\ clear_session_json (Return (JObject [("message", JString "bye")]))
       (snd (serve stuck_urandom counting_clock None spaced_agent alice
               NewSession init_world))
     = clear_session_json
         (Return (JObject
                    [("session_id",
                      JString "00000000-0000-4000-8000-00000000beef")]))
         (snd (serve stuck_urandom counting_clock None spaced_agent alice
                 NewSession init_world)).
Proof.
  split.
  - apply (clear_session_json_without_id [("session_id", JNull)]
             (snd (serve stuck_urandom counting_clock None spaced_agent alice
                     NewSession init_world))).
    reflexivity.
  - symmetry.
    apply (clear_session_json_without_id [("message", JString "bye")]
             (snd (serve stuck_urandom counting_clock None spaced_agent alice
                     NewSession init_world)) I)
      with (sid := "00000000-0000-4000-8000-00000000beef").
    + reflexivity.
    + vm_compute. reflexivity.
Defined.

Lemma clear_session_json_touches_one_entry_witness :
  sessions
    (snd (clear_session_json
            (Return (JObject
                       [("session_id",
                         JString "00000000-0000-4000-8000-00000000beef")]))
            (snd (serve stuck_urandom counting_clock None spaced_agent alice
                    NewSession init_world))))
    !! "00000000-0000-4000-8000-000000000000"
  = sessions (snd (serve stuck_urandom counting_clock None spaced_agent alice
                     NewSession init_world))
      !! "00000000-0000-4000-8000-000000000000".
Proof.
  apply (clear_session_json_touches_one_entry
           (Return (JObject
                      [("session_id",
                        JString "00000000-0000-4000-8000-00000000beef")]))
           (snd (serve stuck_urandom counting_clock None spaced_agent alice
                   NewSession init_world))).
  intros fields [= <-]. vm_compute. discriminate.
Defined.
